(** * EnergyVisualization: the animated particle field, orb and light

    A shallow embedding of the React component
    [timeManagement/src/components/EnergyVisualization.js] (the effect body,
    the [animate] closure, the [handleResize] closure and the effect's
    cleanup), together with the part of its environment those closures
    talk to: the browser's animation-frame queue, the window's resize
    listeners, the mount element and the three.js objects they mutate.

    Numbers are kept abstract (class [Arith]): every statement proved in
    the section holds for any interpretation of JavaScript's arithmetic,
    IEEE doubles with float32 stores included.  The closed examples at the
    end of the file use the real numbers of the Standard Library. *)

From stdpp Require Import base option list strings gmap.
From Stdlib Require Import ZArith QArith Qreals Reals Lra.

Set Default Proof Using "Type".
Local Open Scope Z_scope.

(** ** JavaScript numbers *)

(** The arithmetic the component uses: [+], [-], [*], [/], [Math.sin],
    numeric literals, and the rounding done by a store into a
    [Float32Array]. *)
Class Arith (num : Type) := {
  add : num -> num -> num;
  sub : num -> num -> num;
  mul : num -> num -> num;
  div : num -> num -> num;
  sin : num -> num;
  fround : num -> num;
  lit : Q -> num
}.

Declare Scope js_scope.
Delimit Scope js_scope with js.
Infix "+" := add : js_scope.
Infix "-" := sub : js_scope.
Infix "*" := mul : js_scope.
Infix "/" := div : js_scope.

Definition of_Z {num : Type} `{!Arith num} (z : Z) : num := lit (inject_Z z).

(** ** Effects on the environment, in the order they are performed *)

Inductive Resource :=
  | ParticlesGeometry | ParticlesMaterial | OrbGeometry | OrbMaterial | Renderer.

Inductive Error :=
  | NotFoundError        (* removeChild of a node that is not a child *)
  | RenderError.         (* renderer.render threw *)

Inductive Effect :=
  | RequestAnimationFrame (id : Z)
  | CancelAnimationFrame (id : Z)
  | GetElapsedTime
  | Render
  | AddResizeListener
  | RemoveResizeListener
  | AppendChild
  | RemoveChild
  | Dispose (r : Resource)
  | ReportError (e : Error).   (* the host reports an uncaught exception *)

Global Instance Resource_eq_dec : EqDecision Resource.
Proof. solve_decision. Defined.

Definition is_render (e : Effect) : bool :=
  match e with Render => true | _ => false end.
Definition is_report (e : Effect) : bool :=
  match e with ReportError _ => true | _ => false end.

(** Number of effects of a trace that satisfy [p]. *)
Definition count (p : Effect -> bool) (tr : list Effect) : nat :=
  length (List.filter p tr).

(** ** Property lookup on an object literal *)

(** The names every object literal inherits from [Object.prototype]; each
    is bound to a function (or, for [__proto__], to the prototype object),
    hence to a truthy value. *)
Definition object_prototype : list string :=
  ["constructor"; "hasOwnProperty"; "isPrototypeOf"; "propertyIsEnumerable";
   "toLocaleString"; "toString"; "valueOf"; "__proto__";
   "__defineGetter__"; "__defineSetter__"; "__lookupGetter__";
   "__lookupSetter__"]%string.

Section Visualization.
Context {num : Type} `{!Arith num}.
Local Open Scope js_scope.

(** An entry of [energyColors]. *)
Record Preset := { color : Z; intensity : num }.

(** What [energyColors[energyLevel]] can evaluate to. *)
Inductive JsValue :=
  | VUndefined
  | VPreset (p : Preset)
  | VInherited (name : string).

Definition high : Preset := {| color := 0xff6b6b; intensity := lit 2 |}.
Definition medium : Preset := {| color := 0x4ecdc4; intensity := lit (15 # 10) |}.
Definition low : Preset := {| color := 0x95a5a6; intensity := lit 1 |}.

(** The own properties of the literal. *)
Definition energyColors : gmap string Preset :=
  <["high"%string := high]> (<["medium"%string := medium]> (<["low"%string := low]> ∅)).

(** [o[key]]: own properties first, then the prototype. *)
Definition get (o : gmap string Preset) (key : string) : JsValue :=
  match o !! key with
  | Some p => VPreset p
  | None => if decide (key ∈ object_prototype) then VInherited key else VUndefined
  end.

Definition truthy (v : JsValue) : bool :=
  match v with VUndefined => false | _ => true end.

(** [a || b] *)
Definition js_or (a b : JsValue) : JsValue := if truthy a then a else b.

(** [energyColors[energyLevel] || energyColors.medium]; [energyLevel] is the
    property key the prop converts to. *)
Definition currentEnergy (energyLevel : string) : JsValue :=
  js_or (get energyColors energyLevel) (get energyColors "medium").

(** [v.color] and [v.intensity]; [None] is [undefined]. *)
Definition get_color (v : JsValue) : option Z :=
  match v with VPreset p => Some (color p) | _ => None end.
Definition get_intensity (v : JsValue) : option num :=
  match v with VPreset p => Some (intensity p) | _ => None end.

(** ** The state the closures share *)

Record Vec3 := { vx : num; vy : num; vz : num }.

(** [v.setScalar(k)] *)
Definition setScalar (k : num) : Vec3 := {| vx := k; vy := k; vz := k |}.

(** A typed array is an object: [array_id] is its identity (its allocation
    number), [array_data] its elements. *)
Record Float32Array := { array_id : nat; array_data : list num }.

(** The mount element as the component reads it. *)
Record Mount := { clientWidth : Z; clientHeight : Z }.

(** The browser and React side. *)
Record Host := {
  mountRef : option Mount;       (* [mountRef.current]; [None] is [null] *)
  canvas_in_mount : bool;        (* [renderer.domElement] is a child of the mount *)
  resize_listener : bool;        (* [handleResize] is registered on [window] *)
  pending : list Z;              (* handles of the requested frames, oldest
                                    first; the callback is always [animate] *)
  next_handle : Z;               (* the handle the next request returns *)
  random_source : nat -> num;    (* what the n-th call of [Math.random] returns *)
  random_calls : nat;            (* calls of [Math.random] so far *)
  arrays_allocated : nat;        (* typed arrays allocated so far *)
  trace : list Effect            (* the effects so far, oldest first *)
}.

(** The objects built by the effect body and captured by its closures. *)
Record Session := {
  energy : JsValue;              (* [currentEnergy] *)
  time : num;
  camera_aspect : num;           (* [camera.aspect] *)
  projection_aspect : num;       (* the aspect the projection matrix was last
                                    computed from ([updateProjectionMatrix]) *)
  renderer_size : Z * Z;         (* width and height given to [setSize] *)
  positions : Float32Array;      (* [posArray], which is also
                                    [particlesGeometry.attributes.position.array] *)
  needsUpdate : bool;
  particles_rotation : Vec3;     (* [particlesMesh.rotation] *)
  orb_rotation : Vec3;
  orb_scale : Vec3;
  light_intensity : option num;  (* [None]: not a number *)
  released : list Resource       (* the objects [dispose()] was called on *)
}.

Record World := {
  host : Host;
  animationIdRef : option Z;     (* [animationIdRef.current] *)
  session : Session
}.

Definition set_mountRef (v : option Mount) (h : Host) : Host :=
  {| mountRef := v; canvas_in_mount := canvas_in_mount h;
     resize_listener := resize_listener h; pending := pending h;
     next_handle := next_handle h; random_source := random_source h;
     random_calls := random_calls h; arrays_allocated := arrays_allocated h;
     trace := trace h |}.
Definition set_canvas_in_mount (v : bool) (h : Host) : Host :=
  {| mountRef := mountRef h; canvas_in_mount := v;
     resize_listener := resize_listener h; pending := pending h;
     next_handle := next_handle h; random_source := random_source h;
     random_calls := random_calls h; arrays_allocated := arrays_allocated h;
     trace := trace h |}.
Definition set_resize_listener (v : bool) (h : Host) : Host :=
  {| mountRef := mountRef h; canvas_in_mount := canvas_in_mount h;
     resize_listener := v; pending := pending h; next_handle := next_handle h;
     random_source := random_source h; random_calls := random_calls h;
     arrays_allocated := arrays_allocated h; trace := trace h |}.
Definition set_pending (v : list Z) (h : Host) : Host :=
  {| mountRef := mountRef h; canvas_in_mount := canvas_in_mount h;
     resize_listener := resize_listener h; pending := v;
     next_handle := next_handle h; random_source := random_source h;
     random_calls := random_calls h; arrays_allocated := arrays_allocated h;
     trace := trace h |}.
Definition set_next_handle (v : Z) (h : Host) : Host :=
  {| mountRef := mountRef h; canvas_in_mount := canvas_in_mount h;
     resize_listener := resize_listener h; pending := pending h;
     next_handle := v; random_source := random_source h;
     random_calls := random_calls h; arrays_allocated := arrays_allocated h;
     trace := trace h |}.
Definition set_random_calls (v : nat) (h : Host) : Host :=
  {| mountRef := mountRef h; canvas_in_mount := canvas_in_mount h;
     resize_listener := resize_listener h; pending := pending h;
     next_handle := next_handle h; random_source := random_source h;
     random_calls := v; arrays_allocated := arrays_allocated h;
     trace := trace h |}.
Definition set_arrays_allocated (v : nat) (h : Host) : Host :=
  {| mountRef := mountRef h; canvas_in_mount := canvas_in_mount h;
     resize_listener := resize_listener h; pending := pending h;
     next_handle := next_handle h; random_source := random_source h;
     random_calls := random_calls h; arrays_allocated := v;
     trace := trace h |}.
Definition set_trace (v : list Effect) (h : Host) : Host :=
  {| mountRef := mountRef h; canvas_in_mount := canvas_in_mount h;
     resize_listener := resize_listener h; pending := pending h;
     next_handle := next_handle h; random_source := random_source h;
     random_calls := random_calls h; arrays_allocated := arrays_allocated h;
     trace := v |}.

Definition set_time (v : num) (s : Session) : Session :=
  {| energy := energy s; time := v; camera_aspect := camera_aspect s;
     projection_aspect := projection_aspect s;
     renderer_size := renderer_size s; positions := positions s;
     needsUpdate := needsUpdate s; particles_rotation := particles_rotation s;
     orb_rotation := orb_rotation s; orb_scale := orb_scale s;
     light_intensity := light_intensity s; released := released s |}.
Definition set_camera_aspect (v : num) (s : Session) : Session :=
  {| energy := energy s; time := time s; camera_aspect := v;
     projection_aspect := projection_aspect s;
     renderer_size := renderer_size s; positions := positions s;
     needsUpdate := needsUpdate s; particles_rotation := particles_rotation s;
     orb_rotation := orb_rotation s; orb_scale := orb_scale s;
     light_intensity := light_intensity s; released := released s |}.
Definition set_projection_aspect (v : num) (s : Session) : Session :=
  {| energy := energy s; time := time s; camera_aspect := camera_aspect s;
     projection_aspect := v; renderer_size := renderer_size s;
     positions := positions s; needsUpdate := needsUpdate s;
     particles_rotation := particles_rotation s;
     orb_rotation := orb_rotation s; orb_scale := orb_scale s;
     light_intensity := light_intensity s; released := released s |}.
Definition set_renderer_size (v : Z * Z) (s : Session) : Session :=
  {| energy := energy s; time := time s; camera_aspect := camera_aspect s;
     projection_aspect := projection_aspect s; renderer_size := v;
     positions := positions s; needsUpdate := needsUpdate s;
     particles_rotation := particles_rotation s;
     orb_rotation := orb_rotation s; orb_scale := orb_scale s;
     light_intensity := light_intensity s; released := released s |}.
Definition set_positions (v : Float32Array) (s : Session) : Session :=
  {| energy := energy s; time := time s; camera_aspect := camera_aspect s;
     projection_aspect := projection_aspect s;
     renderer_size := renderer_size s; positions := v;
     needsUpdate := needsUpdate s; particles_rotation := particles_rotation s;
     orb_rotation := orb_rotation s; orb_scale := orb_scale s;
     light_intensity := light_intensity s; released := released s |}.
Definition set_needsUpdate (v : bool) (s : Session) : Session :=
  {| energy := energy s; time := time s; camera_aspect := camera_aspect s;
     projection_aspect := projection_aspect s;
     renderer_size := renderer_size s; positions := positions s;
     needsUpdate := v; particles_rotation := particles_rotation s;
     orb_rotation := orb_rotation s; orb_scale := orb_scale s;
     light_intensity := light_intensity s; released := released s |}.
Definition set_particles_rotation (v : Vec3) (s : Session) : Session :=
  {| energy := energy s; time := time s; camera_aspect := camera_aspect s;
     projection_aspect := projection_aspect s;
     renderer_size := renderer_size s; positions := positions s;
     needsUpdate := needsUpdate s; particles_rotation := v;
     orb_rotation := orb_rotation s; orb_scale := orb_scale s;
     light_intensity := light_intensity s; released := released s |}.
Definition set_orb_rotation (v : Vec3) (s : Session) : Session :=
  {| energy := energy s; time := time s; camera_aspect := camera_aspect s;
     projection_aspect := projection_aspect s;
     renderer_size := renderer_size s; positions := positions s;
     needsUpdate := needsUpdate s; particles_rotation := particles_rotation s;
     orb_rotation := v; orb_scale := orb_scale s;
     light_intensity := light_intensity s; released := released s |}.
Definition set_orb_scale (v : Vec3) (s : Session) : Session :=
  {| energy := energy s; time := time s; camera_aspect := camera_aspect s;
     projection_aspect := projection_aspect s;
     renderer_size := renderer_size s; positions := positions s;
     needsUpdate := needsUpdate s; particles_rotation := particles_rotation s;
     orb_rotation := orb_rotation s; orb_scale := v;
     light_intensity := light_intensity s; released := released s |}.
Definition set_light_intensity (v : option num) (s : Session) : Session :=
  {| energy := energy s; time := time s; camera_aspect := camera_aspect s;
     projection_aspect := projection_aspect s;
     renderer_size := renderer_size s; positions := positions s;
     needsUpdate := needsUpdate s; particles_rotation := particles_rotation s;
     orb_rotation := orb_rotation s; orb_scale := orb_scale s;
     light_intensity := v; released := released s |}.
Definition set_released (v : list Resource) (s : Session) : Session :=
  {| energy := energy s; time := time s; camera_aspect := camera_aspect s;
     projection_aspect := projection_aspect s;
     renderer_size := renderer_size s; positions := positions s;
     needsUpdate := needsUpdate s; particles_rotation := particles_rotation s;
     orb_rotation := orb_rotation s; orb_scale := orb_scale s;
     light_intensity := light_intensity s; released := v |}.

Definition set_vx (v : num) (r : Vec3) : Vec3 := {| vx := v; vy := vy r; vz := vz r |}.
Definition set_vy (v : num) (r : Vec3) : Vec3 := {| vx := vx r; vy := v; vz := vz r |}.
Definition set_data (d : list num) (a : Float32Array) : Float32Array :=
  {| array_id := array_id a; array_data := d |}.

Definition on_host (f : Host -> Host) (w : World) : World :=
  {| host := f (host w); animationIdRef := animationIdRef w; session := session w |}.
Definition on_session (f : Session -> Session) (w : World) : World :=
  {| host := host w; animationIdRef := animationIdRef w; session := f (session w) |}.
Definition set_animationIdRef (v : option Z) (w : World) : World :=
  {| host := host w; animationIdRef := v; session := session w |}.

Definition log (e : Effect) (h : Host) : Host := set_trace (trace h ++ [e]) h.

(** ** Computations that change the world and may throw *)

Inductive Result (A : Type) :=
  | Ok (a : A)
  | Thrown (e : Error).
Global Arguments Ok {A} a.
Global Arguments Thrown {A} e.

Definition M (A : Type) : Type := World -> World * Result A.

Definition ret {A} (a : A) : M A := fun w => (w, Ok a).
Definition bind {A B} (c : M A) (k : A -> M B) : M B := fun w =>
  match c w with
  | (w', Ok a) => k a w'
  | (w', Thrown e) => (w', Thrown e)
  end.
Definition throw {A} (e : Error) : M A := fun w => (w, Thrown e).
Definition gets {A} (f : World -> A) : M A := fun w => (w, Ok (f w)).
Definition modify (f : World -> World) : M unit := fun w => (f w, Ok tt).

Global Instance M_ret : MRet M := @ret.
Global Instance M_bind : MBind M := fun A B k c => bind c k.

(** [c;; k] is stdpp's sequencing; a bound result is written with [let!]. *)
Notation "'let!' x ':=' c 'in' k" := (bind c (fun x => k))
  (at level 10, x name, c at level 100, k at level 200).

(** ** The environment's operations *)

Definition requestAnimationFrame : M Z := fun w =>
  let id := next_handle (host w) in
  (on_host (fun h => log (RequestAnimationFrame id)
                       (set_next_handle (id + 1)%Z (set_pending (pending h ++ [id]) h))) w,
   Ok id).

Definition cancelAnimationFrame (id : Z) : M unit :=
  modify (on_host (fun h => log (CancelAnimationFrame id)
                              (set_pending (filter (fun i => i <> id) (pending h)) h))).

Definition addEventListener : M unit :=
  modify (on_host (fun h => log AddResizeListener (set_resize_listener true h))).

Definition removeEventListener : M unit :=
  modify (on_host (fun h => log RemoveResizeListener (set_resize_listener false h))).

(** [clock.getElapsedTime()]; [t] is the value the clock reads. *)
Definition getElapsedTime (t : num) : M num :=
  modify (on_host (log GetElapsedTime));; mret t.

(** [renderer.render(scene, camera)]; [draws] tells whether the draw succeeds. *)
Definition render (draws : bool) : M unit :=
  modify (on_host (log Render));;
  if draws then mret tt else throw RenderError.

(** [mountRef.current.removeChild(renderer.domElement)]: the DOM throws when
    the node is not a child. *)
Definition removeChild : M unit :=
  modify (on_host (log RemoveChild));;
  let! attached := gets (fun w => canvas_in_mount (host w)) in
  if attached then modify (on_host (set_canvas_in_mount false))
  else throw NotFoundError.

(** [r.dispose()]: three.js frees what the object holds; a second call finds
    nothing left to free. *)
Definition mark (r : Resource) (l : list Resource) : list Resource :=
  if decide (r ∈ l) then l else l ++ [r].
Definition dispose (r : Resource) : M unit :=
  modify (on_host (log (Dispose r)));;
  modify (on_session (fun s => set_released (mark r (released s)) s)).

(** [camera.updateProjectionMatrix()] *)
Definition updateProjectionMatrix : M unit :=
  modify (on_session (fun s => set_projection_aspect (camera_aspect s) s)).

(** [renderer.setSize(width, height)] *)
Definition setSize (width height : Z) : M unit :=
  modify (on_session (set_renderer_size (width, height))).

(** [Math.random()] *)
Definition Math_random : M num := fun w =>
  (on_host (fun h => set_random_calls (S (random_calls h)) h) w,
   Ok (random_source (host w) (random_calls (host w)))).

(** [for (const i of l) body(i)] *)
Fixpoint for_each (l : list nat) (body : nat -> M unit) : M unit :=
  match l with
  | [] => mret tt
  | i :: l' => body i;; for_each l' body
  end.

(** ** The component *)

Definition particlesCount : nat := 1000.

(** [a + b] where [a] may be [undefined]: the sum is then not a number. *)
Definition add_undefined (a : option num) (b : num) : option num :=
  match a with Some a => Some (a + b) | None => None end.

(** One iteration of the loop of [animate]:
    [positions[i3 + 1] += Math.sin(time + positions[i3]) * 0.001].
    A typed array ignores a store outside its range. *)
Definition move_particle (time : num) (positions : list num) (i : nat) : list num :=
  let i3 := (i * 3)%nat in
  match positions !! i3, positions !! (i3 + 1)%nat with
  | Some x, Some y =>
      <[(i3 + 1)%nat := fround (y + sin (time + x) * lit (1 # 1000))]> positions
  | _, _ => positions
  end.

(** The whole loop, [i] from [0] to [particlesCount - 1]. *)
Definition update_positions (time : num) (positions : list num) : list num :=
  fold_left (move_particle time) (seq 0 particlesCount) positions.

(** The closure [animate]; [t] is what the clock reads during the call and
    [draws] whether [renderer.render] succeeds. *)
Definition animate (t : num) (draws : bool) : M unit :=
  let! id := requestAnimationFrame in
  modify (set_animationIdRef (Some id));;
  let! time := getElapsedTime t in
  modify (on_session (set_time time));;
  modify (on_session (fun s =>
    set_particles_rotation (set_vy (time * lit (2 # 10)) (particles_rotation s)) s));;
  modify (on_session (fun s =>
    set_particles_rotation (set_vx (time * lit (1 # 10)) (particles_rotation s)) s));;
  modify (on_session (fun s =>
    set_orb_rotation (set_vx (time * lit (5 # 10)) (orb_rotation s)) s));;
  modify (on_session (fun s =>
    set_orb_rotation (set_vy (time * lit (3 # 10)) (orb_rotation s)) s));;
  modify (on_session (set_orb_scale (setScalar (lit 1 + sin time * lit (2 # 10)))));;
  modify (on_session (fun s =>
    set_positions (set_data (update_positions time (array_data (positions s)))
                            (positions s)) s));;
  modify (on_session (set_needsUpdate true));;
  modify (on_session (fun s =>
    set_light_intensity
      (add_undefined (get_intensity (energy s)) (sin (time * lit 2) * lit (5 # 10))) s));;
  render draws.

(** The closure [handleResize]. *)
Definition handleResize : M unit :=
  let! m := gets (fun w => mountRef (host w)) in
  match m with
  | None => mret tt
  | Some el =>
      modify (on_session (set_camera_aspect
                (of_Z (clientWidth el) / of_Z (clientHeight el))));;
      updateProjectionMatrix;;
      setSize (clientWidth el) (clientHeight el)
  end.

(** The function the effect returns (the cleanup).  A handle is truthy
    unless it is 0; [renderer.domElement] is a canvas, always truthy, so the
    second test is on [mountRef.current] alone. *)
Definition cleanup : M unit :=
  removeEventListener;;
  let! id := gets animationIdRef in
  match id with
  | Some i => if decide (i = 0) then mret tt else cancelAnimationFrame i
  | None => mret tt
  end;;
  let! m := gets (fun w => mountRef (host w)) in
  match m with
  | Some _ => removeChild
  | None => mret tt
  end;;
  dispose ParticlesGeometry;;
  dispose ParticlesMaterial;;
  dispose OrbGeometry;;
  dispose OrbMaterial;;
  dispose Renderer.

(** The objects the effect body builds before it fills the buffer: the
    camera and the renderer sized to the mount, the canvas appended, the
    buffer allocated, the orb and the light at their initial values (a
    light built with an [undefined] intensity takes three.js's default 1).
    The WebGL context is taken to be available: the constructors return. *)
Definition construct (energyLevel : string) (el : Mount) (h : Host)
    (ref : option Z) : World :=
  let e := currentEnergy energyLevel in
  let zero := {| vx := lit 0; vy := lit 0; vz := lit 0 |} in
  {| host := log AppendChild
       (set_canvas_in_mount true
          (set_arrays_allocated (S (arrays_allocated h)) h));
     animationIdRef := ref;
     session :=
       {| energy := e;
          time := lit 0;
          camera_aspect := of_Z (clientWidth el) / of_Z (clientHeight el);
          projection_aspect := of_Z (clientWidth el) / of_Z (clientHeight el);
          renderer_size := (clientWidth el, clientHeight el);
          positions := {| array_id := arrays_allocated h;
                          array_data := replicate (particlesCount * 3) (lit 0) |};
          needsUpdate := false;
          particles_rotation := zero;
          orb_rotation := zero;
          orb_scale := setScalar (lit 1);
          light_intensity := Some (default (lit 1) (get_intensity e));
          released := [] |} |}.

(** [posArray[i] = (Math.random() - 0.5) * 10] *)
Definition fill_position (i : nat) : M unit :=
  let! r := Math_random in
  modify (on_session (fun s =>
    set_positions (set_data (<[i := fround ((r - lit (5 # 10)) * lit 10)]>
                               (array_data (positions s)))
                            (positions s)) s)).

(** The body of the effect.  Without a mount it returns at once and there
    is no session ([None]); otherwise it builds the scene, runs the first
    [animate] and registers [handleResize]. *)
Definition effect (energyLevel : string) (t0 : num) (draws0 : bool)
    (h : Host) (ref : option Z) : option (World * Result unit) :=
  match mountRef h with
  | None => None
  | Some el =>
      Some ((for_each (seq 0 (particlesCount * 3)) fill_position;;
             animate t0 draws0;;
             addEventListener) (construct energyLevel el h ref))
  end.

(** ** The host driving the component *)

Inductive Event :=
  | Tick (t : num) (draws : bool)   (* the oldest requested frame is run *)
  | ResizeEvent                     (* [window] dispatches [resize] *)
  | Layout (width height : Z)       (* the mount element changes size *)
  | DetachRef                       (* React clears [mountRef.current] *)
  | Unmount.                        (* React calls the cleanup *)

(** An exception that leaves a callback is reported by the host, which
    goes on. *)
Definition report (r : World * Result unit) : World :=
  match r with
  | (w, Ok _) => w
  | (w, Thrown e) => on_host (log (ReportError e)) w
  end.

Definition step (w : World) (ev : Event) : World :=
  match ev with
  | Tick t draws =>
      match pending (host w) with
      | [] => w
      | _ :: rest => report (animate t draws (on_host (set_pending rest) w))
      end
  | ResizeEvent =>
      if resize_listener (host w) then report (handleResize w) else w
  | Layout width height =>
      match mountRef (host w) with
      | Some _ =>
          on_host (set_mountRef
            (Some {| clientWidth := width; clientHeight := height |})) w
      | None => w
      end
  | DetachRef => on_host (set_mountRef None) w
  | Unmount => report (cleanup w)
  end.

Definition run (w : World) (evs : list Event) : World := fold_left step evs w.

(** [resize(width, height)]: the mount takes the size, the window tells. *)
Definition resize (w : World) (d : Z * Z) : World :=
  step (step w (Layout (fst d) (snd d))) ResizeEvent.

(** What a resize decides: the camera's aspect, the aspect its projection
    was computed from, and the surface's size. *)
Definition viewport (w : World) : num * num * (Z * Z) :=
  (camera_aspect (session w), projection_aspect (session w),
   renderer_size (session w)).

(** [animate] called once for each clock reading of [ts]. *)
Definition animate_all (w : World) (ts : list (num * bool)) : World :=
  fold_left (fun w td => fst (animate (fst td) (snd td) w)) ts w.

(** The frames the host runs for the clock readings [ts]. *)
Definition ticks (ts : list (num * bool)) : list Event :=
  map (fun td => Tick (fst td) (snd td)) ts.

(** The events that call into the session. *)
Definition is_callback (ev : Event) : bool :=
  match ev with Tick _ _ | ResizeEvent => true | _ => false end.

(** A mounted session between two events: its listener registered, its
    canvas in the mount, exactly one frame requested and its handle in
    [animationIdRef]. *)
Definition active (w : World) : Prop :=
  resize_listener (host w) = true ∧
  canvas_in_mount (host w) = true ∧
  (0 < next_handle (host w))%Z ∧
  ∃ id, animationIdRef w = Some id ∧ id ≠ 0%Z ∧ pending (host w) = [id].

(** The world without the record of past effects. *)
Definition untraced (w : World) : World := on_host (set_trace []) w.



(** The world with what depends on the energy level left out: the
    selected value [currentEnergy] and the light's intensity. *)
Definition without_energy (w : World) : World :=
  on_session (fun s =>
    {| energy := VUndefined; time := time s; camera_aspect := camera_aspect s;
       projection_aspect := projection_aspect s;
       renderer_size := renderer_size s; positions := positions s;
       needsUpdate := needsUpdate s;
       particles_rotation := particles_rotation s;
       orb_rotation := orb_rotation s; orb_scale := orb_scale s;
       light_intensity := None; released := released s |}) w.

(** The frames of the host, as opposed to its other events. *)
Definition is_tick (ev : Event) : bool :=
  match ev with Tick _ _ => true | _ => false end.

(** The handles of the requested frames are distinct and were all handed
    out already. *)
Definition handles_fresh (h : Host) : Prop :=
  NoDup (pending h) ∧ Forall (fun id => (id < next_handle h)%Z) (pending h).

End Visualization.

(** ** Real arithmetic *)

Global Instance RArith : Arith R := {|
  add := Rplus; sub := Rminus; mul := Rmult; div := Rdiv;
  sin := Rtrigo_def.sin; fround := fun x => x; lit := Q2R
|}.

(** A mount of 800 by 600 in a page with no frame requested, a random
    source that always answers 0, and the session the effect body builds
    there for the level [medium], its first draw succeeding at time 0. *)
Definition host0 : Host (num := R) :=
  {| mountRef := Some {| clientWidth := 800; clientHeight := 600 |};
     canvas_in_mount := false; resize_listener := false; pending := [];
     next_handle := 1; random_source := fun _ => 0%R; random_calls := 0;
     arrays_allocated := 0; trace := [] |}.

Definition world0 : World (num := R) :=
  match effect "medium" 0%R true host0 None with
  | Some (w, _) => w
  | None => construct "medium" {| clientWidth := 800; clientHeight := 600 |} host0 None
  end.

(** The sessions built in the same page for the level [high] and for the
    inherited name [toString]. *)
Definition world_high : World (num := R) :=
  match effect "high" 0%R true host0 None with
  | Some (w, _) => w
  | None => construct "high" {| clientWidth := 800; clientHeight := 600 |} host0 None
  end.

Definition world_toString : World (num := R) :=
  match effect "toString" 0%R true host0 None with
  | Some (w, _) => w
  | None => construct "toString" {| clientWidth := 800; clientHeight := 600 |} host0 None
  end.

(** The same session once React has cleared the mount reference. *)
Definition world0_detached : World (num := R) := step world0 DetachRef.

(** Scenario B after the first frame: four more frames, then the cleanup. *)
Definition scenarioB : list Event :=
  [Tick (Q2R (1 # 10)) true; Tick (Q2R (2 # 10)) true; Tick (Q2R (3 # 10)) true;
   Tick (Q2R (4 # 10)) true; Unmount].

(** Scenario D after the first frame: frame 2 draws, frame 3 throws. *)
Definition scenarioD : list Event := [Tick 1%R true; Tick 2%R false].

(** ** The caller: [App] and the cards of [EnergySelector] *)

(** A card of [energyLevels] in [EnergySelector]: its [id] and [name]. *)
Record EnergyCard := { card_id : string; card_name : string }.

Definition energyLevels : list EnergyCard :=
  [ {| card_id := "high"; card_name := "High Energy" |};
    {| card_id := "medium"; card_name := "Medium Energy" |};
    {| card_id := "low"; card_name := "Low Energy" |} ].

(** [App]'s state [selectedEnergy] ([None] is [null]) after a click on the
    [i]-th card: [onClick={() => onEnergySelect(energy.id)}] with
    [onEnergySelect = setSelectedEnergy]. *)
Definition click_card (selectedEnergy : option string) (i : nat) : option string :=
  match energyLevels !! i with
  | Some card => Some (card_id card)
  | None => selectedEnergy
  end.

(** [{selectedEnergy && <EnergyVisualization energyLevel={selectedEnergy} />}]:
    the prop the visualization is rendered with, if it is rendered at all
    (a string is truthy unless empty). *)
Definition visualization_prop (selectedEnergy : option string) : option string :=
  match selectedEnergy with
  | Some s => if decide (s = ""%string) then None else Some s
  | None => None
  end.

(** ** What one call of each closure does *)

Section Properties.
Context {num : Type} `{!Arith num}.
Local Open Scope js_scope.
Implicit Types (w : World (num := num)) (t : num) (draws : bool).

Lemma animate_result t draws w :
  snd (animate t draws w) = if draws then Ok tt else Thrown RenderError.
Proof. destruct draws; reflexivity. Qed.

Lemma animate_host t draws w :
  host (fst (animate t draws w)) =
  let id := next_handle (host w) in
  log Render (log GetElapsedTime (log (RequestAnimationFrame id)
    (set_next_handle (id + 1)%Z (set_pending (pending (host w) ++ [id]) (host w))))).
Proof. destruct draws; reflexivity. Qed.

Lemma animate_ref t draws w :
  animationIdRef (fst (animate t draws w)) = Some (next_handle (host w)).
Proof. destruct draws; reflexivity. Qed.

Lemma animate_session t draws w :
  session (fst (animate t draws w)) =
  let s := session w in
  {| energy := energy s;
     time := t;
     camera_aspect := camera_aspect s;
     projection_aspect := projection_aspect s;
     renderer_size := renderer_size s;
     positions := set_data (update_positions t (array_data (positions s))) (positions s);
     needsUpdate := true;
     particles_rotation :=
       {| vx := t * lit (1 # 10); vy := t * lit (2 # 10); vz := vz (particles_rotation s) |};
     orb_rotation :=
       {| vx := t * lit (5 # 10); vy := t * lit (3 # 10); vz := vz (orb_rotation s) |};
     orb_scale := setScalar (lit 1 + sin t * lit (2 # 10));
     light_intensity :=
       add_undefined (get_intensity (energy s)) (sin (t * lit 2) * lit (5 # 10));
     released := released s |}.
Proof. destruct draws; reflexivity. Qed.

(** ** The particle buffer under the loop of [animate] *)

Lemma move_particle_length t (d : list num) i :
  length (move_particle t d i) = length d.
Proof.
  unfold move_particle.
  destruct (d !! (i * 3)%nat), (d !! (i * 3 + 1)%nat); auto using length_insert.
Qed.

Lemma move_particle_other t (d : list num) i j :
  j ≠ (i * 3 + 1)%nat → move_particle t d i !! j = d !! j.
Proof.
  intros Hj. unfold move_particle.
  destruct (d !! (i * 3)%nat), (d !! (i * 3 + 1)%nat); try done.
  by apply list_lookup_insert_ne.
Qed.

Lemma fold_move_length t (l : list nat) (d : list num) :
  length (fold_left (move_particle t) l d) = length d.
Proof.
  revert d. induction l as [|i l IH]; intros d; simpl; [done|].
  by rewrite IH, move_particle_length.
Qed.

Lemma fold_move_other t (l : list nat) (d : list num) j :
  (j mod 3 ≠ 1)%nat → fold_left (move_particle t) l d !! j = d !! j.
Proof.
  intros Hj. revert d. induction l as [|i l IH]; intros d; simpl; [done|].
  rewrite IH. apply move_particle_other.
  intros ->. apply Hj.
  rewrite Nat.add_comm, Nat.Div0.mod_add. done.
Qed.

Lemma update_positions_length t (d : list num) :
  length (update_positions t d) = length d.
Proof. apply fold_move_length. Qed.

Lemma update_positions_other t (d : list num) j :
  (j mod 3 ≠ 1)%nat → update_positions t d !! j = d !! j.
Proof. apply fold_move_other. Qed.

(** ** What each closure leaves alone *)

Ltac unfold_m :=
  unfold mbind, M_bind, mret, M_ret, bind, ret, gets, modify, throw.

Lemma handleResize_result w : snd (handleResize w) = Ok tt.
Proof. unfold handleResize; unfold_m. by destruct (mountRef (host w)). Qed.

Lemma handleResize_host w : host (fst (handleResize w)) = host w.
Proof. unfold handleResize; unfold_m. by destruct (mountRef (host w)). Qed.

Lemma handleResize_ref w : animationIdRef (fst (handleResize w)) = animationIdRef w.
Proof. unfold handleResize; unfold_m. by destruct (mountRef (host w)). Qed.

Lemma handleResize_positions w :
  positions (session (fst (handleResize w))) = positions (session w).
Proof. unfold handleResize; unfold_m. by destruct (mountRef (host w)). Qed.

Lemma handleResize_viewport w el :
  mountRef (host w) = Some el →
  viewport (fst (handleResize w)) =
  (of_Z (clientWidth el) / of_Z (clientHeight el),
   of_Z (clientWidth el) / of_Z (clientHeight el),
   (clientWidth el, clientHeight el)).
Proof. intros Hm. unfold handleResize; unfold_m. simpl. by rewrite Hm. Qed.

(** The cleanup, run symbolically: the world it leaves and its result. *)
Ltac run_cleanup w :=
  unfold cleanup, removeChild; unfold_m; simpl;
  destruct (animationIdRef w) as [i|]; simpl;
  [destruct (decide (i = 0)); simpl|];
  (destruct (mountRef (host w)); simpl;
   [destruct (canvas_in_mount (host w)); simpl|]).

Lemma cleanup_positions w :
  positions (session (fst (cleanup w))) = positions (session w).
Proof. run_cleanup w; reflexivity. Qed.

Lemma cleanup_allocated w :
  arrays_allocated (host (fst (cleanup w))) = arrays_allocated (host w).
Proof. run_cleanup w; reflexivity. Qed.

Lemma report_positions (r : World (num := num) * Result unit) :
  positions (session (report r)) = positions (session (fst r)).
Proof. by destruct r as [w [[]|e]]. Qed.

Lemma report_allocated (r : World (num := num) * Result unit) :
  arrays_allocated (host (report r)) = arrays_allocated (host (fst r)).
Proof. by destruct r as [w [[]|e]]. Qed.

(** Every event keeps the buffer object, its length, and the number of
    typed arrays allocated. *)
Lemma step_buffer w ev :
  array_id (positions (session (step w ev))) = array_id (positions (session w)) ∧
  length (array_data (positions (session (step w ev)))) =
    length (array_data (positions (session w))) ∧
  arrays_allocated (host (step w ev)) = arrays_allocated (host w).
Proof.
  destruct ev as [t draws| |cw ch| |]; simpl.
  - destruct (pending (host w)) as [|id rest]; [done|].
    rewrite report_positions, report_allocated, animate_session, animate_host.
    cbn [positions set_data array_data array_id].
    by rewrite update_positions_length.
  - destruct (resize_listener (host w)); [|done].
    by rewrite report_positions, report_allocated, handleResize_positions,
      handleResize_host.
  - by destruct (mountRef (host w)).
  - done.
  - by rewrite report_positions, report_allocated, cleanup_positions,
      cleanup_allocated.
Qed.

Lemma run_buffer w evs :
  array_id (positions (session (run w evs))) = array_id (positions (session w)) ∧
  length (array_data (positions (session (run w evs)))) =
    length (array_data (positions (session w))) ∧
  arrays_allocated (host (run w evs)) = arrays_allocated (host w).
Proof.
  revert w. induction evs as [|ev evs IH]; intros w; simpl; [done|].
  destruct (IH (step w ev)) as (-> & -> & ->). apply step_buffer.
Qed.

(** The loop that fills the buffer keeps its length and identity. *)
Lemma fill_positions_buffer (l : list nat) w :
  array_id (positions (session (fst (for_each l fill_position w)))) =
    array_id (positions (session w)) ∧
  length (array_data (positions (session (fst (for_each l fill_position w))))) =
    length (array_data (positions (session w))).
Proof.
  revert w. induction l as [|i l IH]; intros w; [done|].
  change (for_each (i :: l) fill_position w)
    with (for_each l fill_position (fst (fill_position i w))).
  destruct (IH (fst (fill_position i w))) as [-> ->]. simpl.
  by rewrite length_insert.
Qed.

Lemma for_each_fill_result (l : list nat) w :
  snd (for_each l fill_position w) = Ok tt.
Proof.
  revert w. induction l as [|i l IH]; intros w; [done|].
  change (for_each (i :: l) fill_position w)
    with (for_each l fill_position (fst (fill_position i w))).
  apply IH.
Qed.

Lemma addEventListener_session w : session (fst (addEventListener w)) = session w.
Proof. reflexivity. Qed.

Lemma addEventListener_host w :
  host (fst (addEventListener w)) =
  log AddResizeListener (set_resize_listener true (host w)).
Proof. reflexivity. Qed.

Lemma addEventListener_ref w :
  animationIdRef (fst (addEventListener w)) = animationIdRef w.
Proof. reflexivity. Qed.

(** The session the effect body leaves holds a buffer of 3000 floats. *)
Lemma effect_world energyLevel t0 draws0 (h : Host (num := num)) ref w r :
  effect energyLevel t0 draws0 h ref = Some (w, r) →
  ∃ el w1,
    mountRef h = Some el ∧
    w1 = fst (for_each (seq 0 (particlesCount * 3)) fill_position
                (construct energyLevel el h ref)) ∧
    w = (if draws0 then fst (addEventListener (fst (animate t0 draws0 w1)))
         else fst (animate t0 draws0 w1)) ∧
    r = (if draws0 then Ok tt else Thrown RenderError).
Proof.
  unfold effect. destruct (mountRef h) as [el|]; [|done].
  generalize (seq 0 (particlesCount * 3)). intros l Hw.
  exists el, (fst (for_each l fill_position (construct energyLevel el h ref))).
  split; [done|]. split; [done|].
  pose proof (for_each_fill_result l (construct energyLevel el h ref)) as Hr.
  injection Hw as Hw. revert Hw. unfold_m.
  destruct (for_each l fill_position _) as [w1 r1]. cbn [fst snd] in *. subst r1.
  pose proof (animate_result t0 draws0 w1) as Ha.
  destruct (animate t0 draws0 w1) as [w2 r2]. cbn [fst snd] in *. subst r2.
  destruct draws0; intros [= <- <-]; done.
Qed.

Lemma effect_buffer energyLevel t0 draws0 (h : Host (num := num)) ref w r :
  effect energyLevel t0 draws0 h ref = Some (w, r) →
  length (array_data (positions (session w))) = 3000%nat ∧
  array_id (positions (session w)) = arrays_allocated h.
Proof.
  intros (el & w1 & _ & Hw1 & -> & _)%effect_world.
  assert (length (array_data (positions (session w1))) = 3000%nat ∧
          array_id (positions (session w1)) = arrays_allocated h) as [Hlen Hid].
  { subst w1.
    destruct (fill_positions_buffer (seq 0 (particlesCount * 3))
                (construct energyLevel el h ref)) as [-> ->].
    split; [|done]. unfold construct. cbn [session positions array_data].
    by rewrite length_replicate. }
  clear Hw1.
  assert (session (if draws0
                   then fst (addEventListener (fst (animate t0 draws0 w1)))
                   else fst (animate t0 draws0 w1)) =
          session (fst (animate t0 draws0 w1))) as ->.
  { destruct draws0; [apply addEventListener_session|reflexivity]. }
  rewrite animate_session. cbn [positions set_data array_data array_id].
  by rewrite update_positions_length.
Qed.

(** ** The particle buffer *)

Lemma fold_left_step {A B} (f : A → B → A) (x : B) (l : list B) (a : A) :
  fold_left f (x :: l) a = fold_left f l (f a x).
Proof. reflexivity. Qed.

Lemma animate_all_cons w t draws (ts : list (num * bool)) :
  animate_all w ((t, draws) :: ts) = animate_all (fst (animate t draws w)) ts.
Proof. reflexivity. Qed.

Lemma animate_positions w t draws :
  array_data (positions (session (fst (animate t draws w)))) =
  update_positions t (array_data (positions (session w))).
Proof. rewrite animate_session. reflexivity. Qed.

Lemma animate_random w t draws :
  random_calls (host (fst (animate t draws w))) = random_calls (host w).
Proof. rewrite animate_host. reflexivity. Qed.

Lemma animate_all_positions w (ts : list (num * bool)) :
  array_data (positions (session (animate_all w ts))) =
  fold_left (fun b t => update_positions t b) ts.*1
    (array_data (positions (session w))).
Proof.
  revert w. induction ts as [|[t draws] ts IH]; intros w; [reflexivity|].
  rewrite animate_all_cons, IH, animate_positions, fmap_cons, fold_left_step.
  reflexivity.
Qed.

Lemma animate_all_random w (ts : list (num * bool)) :
  random_calls (host (animate_all w ts)) = random_calls (host w).
Proof.
  revert w. induction ts as [|[t draws] ts IH]; intros w; [reflexivity|].
  rewrite animate_all_cons, IH. apply animate_random.
Qed.

(** C4. The buffer built by the effect body holds 1000 particles, 3000
    floats, and whatever events follow (frames, resizes, the cleanup) it
    stays the array object the effect body allocated, with the same length,
    and no other typed array is allocated. *)
Theorem particle_buffer_fixed energyLevel t0 draws0 (h : Host (num := num))
    ref w r (evs : list Event) :
  effect energyLevel t0 draws0 h ref = Some (w, r) →
  particlesCount = 1000%nat ∧
  length (array_data (positions (session (run w evs)))) = 3000%nat ∧
  array_id (positions (session (run w evs))) = arrays_allocated h ∧
  arrays_allocated (host (run w evs)) = arrays_allocated (host w).
Proof.
  intros [Hlen Hid]%effect_buffer.
  destruct (run_buffer w evs) as (Hid' & Hl & Ha).
  rewrite Hl, Hlen, Hid', Hid. done.
Qed.

(** C5. The buffer after a sequence of calls of [animate] is a function of
    the buffer before and of the clock readings alone: two runs that start
    from equal buffer contents and read the same times end with equal
    contents, whatever else differs between the two worlds (the rest of the
    scene, the random source, whether the draws succeed); the result is the
    pure [update_positions] folded over the readings, and [Math.random] is
    never called. *)
Theorem particle_update_deterministic w1 w2 (ts1 ts2 : list (num * bool)) :
  array_data (positions (session w1)) = array_data (positions (session w2)) →
  ts1.*1 = ts2.*1 →
  array_data (positions (session (animate_all w1 ts1))) =
    array_data (positions (session (animate_all w2 ts2))) ∧
  array_data (positions (session (animate_all w1 ts1))) =
    fold_left (fun b t => update_positions t b) ts1.*1
      (array_data (positions (session w1))) ∧
  random_calls (host (animate_all w1 ts1)) = random_calls (host w1).
Proof.
  intros Hb Hts. rewrite !animate_all_positions, animate_all_random.
  by rewrite Hb, Hts.
Qed.

(** C10. A call of [animate] stores only into the y slots (indices
    [3 i + 1]) of the buffer: the x slot [3 i] and the z slot [3 i + 2] of
    every particle keep their contents, and so does the length; the rotation
    of the whole field goes to the mesh's rotation, not to the buffer. *)
Theorem animate_writes_only_y w t draws (i : nat) :
  let d := array_data (positions (session w)) in
  let w' := fst (animate t draws w) in
  let d' := array_data (positions (session w')) in
  d' !! (i * 3)%nat = d !! (i * 3)%nat ∧
  d' !! (i * 3 + 2)%nat = d !! (i * 3 + 2)%nat ∧
  length d' = length d ∧
  particles_rotation (session w') =
    {| vx := t * lit (1 # 10); vy := t * lit (2 # 10);
       vz := vz (particles_rotation (session w)) |}.
Proof.
  cbv zeta. rewrite animate_session. cbn [positions set_data array_data particles_rotation].
  rewrite update_positions_length.
  split_and!; [| |done|done]; apply update_positions_other.
  - rewrite Nat.Div0.mod_mul. done.
  - rewrite Nat.add_comm, Nat.Div0.mod_add. done.
Qed.

(** ** The orb, the light and the viewport *)

(** C7. After a call of [animate] that reads the time [t], the orb's
    rotation is [t * 0.5] about x and [t * 0.3] about y (the third angle is
    not touched) and its scale is [1 + sin t * 0.2] on the three axes. *)
Theorem orb_follows_clock w t draws :
  let w' := fst (animate t draws w) in
  vx (orb_rotation (session w')) = t * lit (5 # 10) ∧
  vy (orb_rotation (session w')) = t * lit (3 # 10) ∧
  vz (orb_rotation (session w')) = vz (orb_rotation (session w)) ∧
  orb_scale (session w') = setScalar (lit 1 + sin t * lit (2 # 10)).
Proof. cbv zeta. rewrite animate_session. done. Qed.

(** C8. For a session whose parameter set is a preset [p], after a call of
    [animate] that reads the time [t] the light's intensity is
    [p.intensity + sin (t * 2) * 0.5]. *)
Theorem light_pulses w t draws (p : Preset) :
  energy (session w) = VPreset p →
  light_intensity (session (fst (animate t draws w))) =
    Some (intensity p + sin (t * lit 2) * lit (5 # 10)).
Proof. intros Hp. rewrite animate_session. cbn [light_intensity]. by rewrite Hp. Qed.

Lemma resize_spec w cw ch :
  resize_listener (host w) = true → mountRef (host w) ≠ None →
  viewport (resize w (cw, ch)) = (of_Z cw / of_Z ch, of_Z cw / of_Z ch, (cw, ch)) ∧
  resize_listener (host (resize w (cw, ch))) = true ∧
  mountRef (host (resize w (cw, ch))) ≠ None.
Proof.
  intros Hl Hm. unfold resize. cbn [fst snd].
  set (w1 := step w (Layout cw ch)).
  assert (mountRef (host w1) = Some {| clientWidth := cw; clientHeight := ch |} ∧
          resize_listener (host w1) = true) as [Hm1 Hl1].
  { unfold w1. simpl. destruct (mountRef (host w)); done. }
  unfold step. rewrite Hl1.
  pose proof (handleResize_result w1) as Hr.
  pose proof (handleResize_host w1) as Hh.
  pose proof (handleResize_viewport w1 _ Hm1) as Hv.
  destruct (handleResize w1) as [w2 [[]|e]]; [|done].
  cbn [report fst snd] in *. rewrite Hv, Hh, Hm1, Hl1. done.
Qed.

(** C9. On a mounted session whose listener is registered, after any
    sequence of resizes the camera's aspect, the aspect its projection was
    computed from and the surface's size are those of the last resize
    alone. *)
Theorem resize_last_write_wins w (rs : list (Z * Z)) (cw ch : Z) :
  resize_listener (host w) = true →
  mountRef (host w) ≠ None →
  viewport (fold_left resize (rs ++ [(cw, ch)]) w) =
    (of_Z cw / of_Z ch, of_Z cw / of_Z ch, (cw, ch)).
Proof.
  revert w. induction rs as [|[cw' ch'] rs IH]; intros w Hl Hm.
  - apply resize_spec; done.
  - cbn [app fold_left].
    destruct (resize_spec w cw' ch' Hl Hm) as (_ & Hl' & Hm').
    by apply IH.
Qed.

(** ** The scheduler and the cleanup *)

Lemma report_animate t draws w :
  report (animate t draws w) =
  if draws then fst (animate t draws w)
  else on_host (log (ReportError RenderError)) (fst (animate t draws w)).
Proof. destruct draws; reflexivity. Qed.

Lemma report_handleResize w : report (handleResize w) = fst (handleResize w).
Proof.
  pose proof (handleResize_result w) as Hr.
  destruct (handleResize w) as [w' [[]|e]]; done.
Qed.

(** A frame run by the host, when one is requested. *)
Lemma step_tick w t draws id rest :
  pending (host w) = id :: rest →
  let w1 := fst (animate t draws (on_host (set_pending rest) w)) in
  step w (Tick t draws) =
  if draws then w1 else on_host (log (ReportError RenderError)) w1.
Proof. intros Hp. cbn [step]. rewrite Hp. apply report_animate. Qed.

Lemma animate_fields t draws w :
  let n := next_handle (host w) in
  let w' := fst (animate t draws w) in
  pending (host w') = pending (host w) ++ [n] ∧
  next_handle (host w') = (n + 1)%Z ∧
  animationIdRef w' = Some n ∧
  resize_listener (host w') = resize_listener (host w) ∧
  canvas_in_mount (host w') = canvas_in_mount (host w) ∧
  mountRef (host w') = mountRef (host w) ∧
  time (session w') = t ∧
  trace (host w') =
    trace (host w) ++ [RequestAnimationFrame n; GetElapsedTime; Render].
Proof.
  cbv zeta. rewrite animate_host, animate_ref, animate_session.
  cbn. rewrite <- !app_assoc. done.
Qed.

Lemma logged_fields e w :
  let w' := on_host (log e) w in
  pending (host w') = pending (host w) ∧
  next_handle (host w') = next_handle (host w) ∧
  animationIdRef w' = animationIdRef w ∧
  resize_listener (host w') = resize_listener (host w) ∧
  canvas_in_mount (host w') = canvas_in_mount (host w) ∧
  mountRef (host w') = mountRef (host w) ∧
  session w' = session w ∧
  trace (host w') = trace (host w) ++ [e].
Proof. done. Qed.

Lemma popped_fields rest w :
  let w' := on_host (set_pending rest) w in
  pending (host w') = rest ∧
  next_handle (host w') = next_handle (host w) ∧
  resize_listener (host w') = resize_listener (host w) ∧
  canvas_in_mount (host w') = canvas_in_mount (host w) ∧
  mountRef (host w') = mountRef (host w) ∧
  trace (host w') = trace (host w).
Proof. done. Qed.

Lemma step_tick_host w t draws id rest :
  pending (host w) = id :: rest →
  let n := next_handle (host w) in
  pending (host (step w (Tick t draws))) = rest ++ [n] ∧
  next_handle (host (step w (Tick t draws))) = (n + 1)%Z ∧
  animationIdRef (step w (Tick t draws)) = Some n ∧
  resize_listener (host (step w (Tick t draws))) = resize_listener (host w) ∧
  canvas_in_mount (host (step w (Tick t draws))) = canvas_in_mount (host w) ∧
  mountRef (host (step w (Tick t draws))) = mountRef (host w) ∧
  time (session (step w (Tick t draws))) = t ∧
  trace (host (step w (Tick t draws))) =
    trace (host w) ++ [RequestAnimationFrame n; GetElapsedTime; Render] ++
    (if draws then [] else [ReportError RenderError]).
Proof.
  intros Hp. cbv zeta. rewrite (step_tick w t draws id rest Hp). cbv zeta.
  destruct (popped_fields rest w) as (Hp0 & Hn0 & Hl0 & Hc0 & Hm0 & Ht0).
  destruct (animate_fields t draws (on_host (set_pending rest) w))
    as (Hp1 & Hn1 & Hr1 & Hl1 & Hc1 & Hm1 & Hs1 & Ht1).
  rewrite Hp0, Hn0 in *. rewrite Hl0 in Hl1. rewrite Hc0 in Hc1.
  rewrite Hm0 in Hm1. rewrite Ht0 in Ht1.
  destruct draws.
  - rewrite Hp1, Hn1, Hr1, Hl1, Hc1, Hm1, Hs1, Ht1. done.
  - destruct (logged_fields (ReportError RenderError)
                (fst (animate t false (on_host (set_pending rest) w))))
      as (-> & -> & -> & -> & -> & -> & -> & ->).
    rewrite Hp1, Hn1, Hr1, Hl1, Hc1, Hm1, Hs1, Ht1, <- !app_assoc. done.
Qed.

Lemma count_app (p : Effect → bool) (l1 l2 : list Effect) :
  count p (l1 ++ l2) = (count p l1 + count p l2)%nat.
Proof. unfold count. by rewrite List.filter_app, length_app. Qed.

(** Once no frame is requested and no listener registered, the host's
    frames and resize events do not reach the session. *)
Lemma inert_step w ev :
  pending (host w) = [] → resize_listener (host w) = false →
  is_callback ev = true → step w ev = w.
Proof.
  intros Hp Hl Hev. destruct ev; try done; cbn [step]; by rewrite ?Hp, ?Hl.
Qed.

Lemma inert_run w evs :
  pending (host w) = [] → resize_listener (host w) = false →
  forallb is_callback evs = true → run w evs = w.
Proof.
  intros Hp Hl. induction evs as [|ev evs IH]; [done|].
  intros [Hev Hevs]%andb_prop. unfold run. cbn [fold_left].
  rewrite (inert_step w ev Hp Hl Hev). by apply IH.
Qed.

Lemma mark_elem r (l : list Resource) : r ∈ mark r l.
Proof. unfold mark. case_decide; [done|]. apply elem_of_app. right. by left. Qed.

Lemma mark_mono r r' (l : list Resource) : r' ∈ l → r' ∈ mark r l.
Proof. intros Hr. unfold mark. case_decide; [done|]. apply elem_of_app. by left. Qed.

Lemma mark_id r (l : list Resource) : r ∈ l → mark r l = l.
Proof. intros Hr. unfold mark. by case_decide. Qed.

(** The cleanup of a session whose frame handle is [id] and whose canvas is
    still in the mount (or whose mount reference is cleared). *)
Lemma cleanup_first w id :
  animationIdRef w = Some id → id ≠ 0%Z →
  canvas_in_mount (host w) = true ∨ mountRef (host w) = None →
  let w' := fst (cleanup w) in
  snd (cleanup w) = Ok tt ∧
  trace (host w') =
    trace (host w) ++ [RemoveResizeListener; CancelAnimationFrame id] ++
    match mountRef (host w) with Some _ => [RemoveChild] | None => [] end ++
    [Dispose ParticlesGeometry; Dispose ParticlesMaterial; Dispose OrbGeometry;
     Dispose OrbMaterial; Dispose Renderer] ∧
  pending (host w') = filter (fun i => i ≠ id) (pending (host w)) ∧
  resize_listener (host w') = false ∧
  animationIdRef w' = Some id ∧
  mountRef (host w') = mountRef (host w) ∧
  (∀ r, r ∈ released (session w')).
Proof.
  intros Hid Hne Hc. cbv zeta.
  unfold cleanup, removeChild, cancelAnimationFrame, removeEventListener, dispose.
  unfold_m. cbn. rewrite Hid. cbn.
  destruct (decide (id = 0%Z)) as [|_]; [done|]. cbn.
  assert (∀ l : list Resource, ∀ r,
    r ∈ mark Renderer (mark OrbMaterial (mark OrbGeometry
          (mark ParticlesMaterial (mark ParticlesGeometry l))))) as Hall.
  { intros l []; eauto 6 using mark_elem, mark_mono. }
  destruct (mountRef (host w)) as [el|] eqn:Hm; cbn.
  - destruct Hc as [Hc|Hc]; [|done]. rewrite Hc. cbn.
    rewrite <- !app_assoc. done.
  - rewrite <- !app_assoc. done.
Qed.

(** The cleanup called again once the mount reference is cleared. *)
Lemma cleanup_again w :
  mountRef (host w) = None →
  resize_listener (host w) = false →
  pending (host w) = [] →
  (∀ r, r ∈ released (session w)) →
  snd (cleanup w) = Ok tt ∧ untraced (fst (cleanup w)) = untraced w.
Proof.
  intros Hm Hl Hp Hr. destruct w as [[] a []]. cbn in Hm, Hl, Hp, Hr. subst.
  unfold cleanup, removeChild, cancelAnimationFrame, removeEventListener, dispose.
  unfold_m.
  destruct a as [i|]; cbn; [destruct (decide (i = 0%Z)); cbn|];
    (split; [done|]); unfold untraced, on_host, set_released; cbn;
    rewrite (mark_id ParticlesGeometry), (mark_id ParticlesMaterial),
      (mark_id OrbGeometry), (mark_id OrbMaterial), (mark_id Renderer)
      by apply Hr; reflexivity.
Qed.

Lemma untraced_fields w1 w2 :
  untraced w1 = untraced w2 →
  mountRef (host w1) = mountRef (host w2) ∧
  resize_listener (host w1) = resize_listener (host w2) ∧
  pending (host w1) = pending (host w2) ∧
  released (session w1) = released (session w2) ∧
  arrays_allocated (host w1) = arrays_allocated (host w2).
Proof.
  destruct w1 as [[] ? ?], w2 as [[] ? ?]. unfold untraced, on_host. cbn.
  intros [= -> -> -> -> -> -> -> -> -> ->]. done.
Qed.

(** *** [active] is what the effect body establishes and the host keeps *)

Lemma fill_positions_frame (l : list nat) w :
  let w' := fst (for_each l fill_position w) in
  pending (host w') = pending (host w) ∧
  next_handle (host w') = next_handle (host w) ∧
  resize_listener (host w') = resize_listener (host w) ∧
  canvas_in_mount (host w') = canvas_in_mount (host w) ∧
  mountRef (host w') = mountRef (host w) ∧
  trace (host w') = trace (host w) ∧
  animationIdRef w' = animationIdRef w ∧
  energy (session w') = energy (session w) ∧
  random_calls (host w') = (length l + random_calls (host w))%nat.
Proof.
  revert w. induction l as [|i l IH]; intros w; [done|].
  change (for_each (i :: l) fill_position w)
    with (for_each l fill_position (fst (fill_position i w))).
  cbv zeta. destruct (IH (fst (fill_position i w)))
    as (-> & -> & -> & -> & -> & -> & -> & -> & ->).
  cbn. split_and!; try done; lia.
Qed.

Lemma effect_active energyLevel t0 (h : Host (num := num)) ref w r :
  effect energyLevel t0 true h ref = Some (w, r) →
  pending h = [] → (0 < next_handle h)%Z →
  r = Ok tt ∧ active w ∧ energy (session w) = currentEnergy energyLevel.
Proof.
  intros (el & w1 & Hm & Hw1 & -> & ->)%effect_world Hp Hn.
  destruct (fill_positions_frame (seq 0 (particlesCount * 3))
              (construct energyLevel el h ref))
    as (Hp1 & Hn1 & Hl1 & Hc1 & Hm1 & _ & _ & He1 & _).
  cbv zeta in *. rewrite <- Hw1 in *. clear Hw1.
  change (pending (host (construct energyLevel el h ref))) with (pending h) in Hp1.
  change (next_handle (host (construct energyLevel el h ref)))
    with (next_handle h) in Hn1.
  change (canvas_in_mount (host (construct energyLevel el h ref))) with true in Hc1.
  change (energy (session (construct energyLevel el h ref)))
    with (currentEnergy energyLevel) in He1.
  destruct (animate_fields t0 true w1) as (Hp2 & Hn2 & Hr2 & Hl2 & Hc2 & Hm2 & _ & _).
  cbv zeta in *.
  split; [done|]. unfold active.
  rewrite addEventListener_host, addEventListener_ref, addEventListener_session.
  rewrite animate_session. cbn [energy].
  change (resize_listener (log AddResizeListener (set_resize_listener true ?x)))
    with true.
  change (canvas_in_mount (log AddResizeListener (set_resize_listener true
            (host (fst (animate t0 true w1))))))
    with (canvas_in_mount (host (fst (animate t0 true w1)))).
  change (next_handle (log AddResizeListener (set_resize_listener true
            (host (fst (animate t0 true w1))))))
    with (next_handle (host (fst (animate t0 true w1)))).
  change (pending (log AddResizeListener (set_resize_listener true
            (host (fst (animate t0 true w1))))))
    with (pending (host (fst (animate t0 true w1)))).
  rewrite Hc2, Hc1, Hn2, Hn1, Hr2, Hp2, Hp1, Hp, He1.
  split; [|done]. split_and!; try done; [lia|].
  exists (next_handle (host w1)). rewrite Hn1. split_and!; [done|lia|done].
Qed.

Lemma active_step w ev : active w → ev ≠ Unmount → active (step w ev).
Proof.
  intros (Hl & Hc & Hn & id & Hr & Hid & Hp) Hev.
  destruct ev as [t draws| |cw ch| |]; [| | | |done].
  - destruct (step_tick_host w t draws id [] Hp)
      as (Hp' & Hn' & Hr' & Hl' & Hc' & _).
    cbv zeta in *. unfold active. rewrite Hp', Hn', Hr', Hl', Hc'.
    split_and!; try done; [lia|].
    exists (next_handle (host w)). split_and!; [done|lia|done].
  - cbn [step]. rewrite Hl, report_handleResize. unfold active.
    rewrite handleResize_host, handleResize_ref. eauto 10.
  - cbn [step]. destruct (mountRef (host w)); unfold active; cbn; eauto 10.
  - unfold active; cbn; eauto 10.
Qed.

Lemma active_run w (evs : list Event) :
  active w → Forall (fun ev => ev ≠ Unmount) evs → active (run w evs).
Proof.
  intros Hw Hevs. revert w Hw.
  induction Hevs as [|ev evs Hev _ IH]; intros w Hw; [done|].
  apply (IH (step w ev)). by apply active_step.
Qed.

(** *** Frames *)

Lemma tick_counts w t draws :
  pending (host w) ≠ [] →
  pending (host (step w (Tick t draws))) ≠ [] ∧
  count is_render (trace (host (step w (Tick t draws)))) =
    S (count is_render (trace (host w))) ∧
  count is_report (trace (host (step w (Tick t draws)))) =
    (count is_report (trace (host w)) + if draws then 0 else 1)%nat.
Proof.
  intros Hp. destruct (pending (host w)) as [|id rest] eqn:Hq; [done|].
  destruct (step_tick_host w t draws id rest Hq) as (Hp' & _ & _ & _ & _ & _ & _ & Ht).
  cbv zeta in *. rewrite Hp', Ht, !count_app.
  split; [by destruct rest|].
  destruct draws; cbn; split; lia.
Qed.

(** C1, as the code has it.  A frame first requests the next frame, then
    reads the clock, updates the scene and draws; nothing catches a failing
    draw.  So with a frame requested, every frame of a sequence is
    attempted whether or not an earlier draw threw, a frame is still
    requested afterwards, and each failing draw is reported once by the
    host. *)
Theorem frames_go_on_after_a_failure w (ts : list (num * bool)) :
  pending (host w) ≠ [] →
  (∀ t draws,
     trace (host (step w (Tick t draws))) =
       trace (host w) ++
       [RequestAnimationFrame (next_handle (host w)); GetElapsedTime; Render] ++
       (if draws then [] else [ReportError RenderError]) ∧
     time (session (step w (Tick t draws))) = t) ∧
  pending (host (run w (ticks ts))) ≠ [] ∧
  count is_render (trace (host (run w (ticks ts)))) =
    (count is_render (trace (host w)) + length ts)%nat ∧
  count is_report (trace (host (run w (ticks ts)))) =
    (count is_report (trace (host w)) +
     length (List.filter (fun td => negb (snd td)) ts))%nat.
Proof.
  intros Hp. split.
  { intros t draws. destruct (pending (host w)) as [|id rest] eqn:Hq; [done|].
    destruct (step_tick_host w t draws id rest Hq)
      as (_ & _ & _ & _ & _ & _ & Hs & Ht).
    done. }
  revert w Hp. induction ts as [|[t draws] ts IH]; intros w Hp.
  { cbn. split_and!; [done|lia|lia]. }
  destruct (tick_counts w t draws Hp) as (Hp' & Hr' & He').
  destruct (IH (step w (Tick t draws)) Hp') as (Hp'' & Hr'' & He'').
  change (run w (ticks ((t, draws) :: ts)))
    with (run (step w (Tick t draws)) (ticks ts)).
  rewrite Hr'', He'', Hr', He'. split; [done|].
  destruct draws; cbn [List.filter snd negb length]; lia.
Qed.

(** *** The cleanup *)

(** C3. The cleanup of an active session returns normally and performs, in
    this order: the listener's removal, the cancellation of the requested
    frame, the canvas's removal (when the mount is still referenced), then
    the five [dispose] calls.  It leaves no frame requested and no listener
    registered, so that no frame or resize event that follows reaches the
    session. *)
Theorem cleanup_cancels_before_release w :
  active w →
  ∃ id, animationIdRef w = Some id ∧
    snd (cleanup w) = Ok tt ∧
    trace (host (fst (cleanup w))) =
      trace (host w) ++ [RemoveResizeListener; CancelAnimationFrame id] ++
      match mountRef (host w) with Some _ => [RemoveChild] | None => [] end ++
      [Dispose ParticlesGeometry; Dispose ParticlesMaterial; Dispose OrbGeometry;
       Dispose OrbMaterial; Dispose Renderer] ∧
    pending (host (fst (cleanup w))) = [] ∧
    resize_listener (host (fst (cleanup w))) = false ∧
    ∀ evs, forallb is_callback evs = true →
      run (fst (cleanup w)) evs = fst (cleanup w).
Proof.
  intros (Hl & Hc & Hn & id & Hr & Hid & Hp).
  destruct (cleanup_first w id Hr Hid (or_introl Hc))
    as (Hres & Htr & Hp' & Hl' & _).
  cbv zeta in *. rewrite Hp in Hp'. cbn in Hp'.
  rewrite decide_False in Hp' by (intros Hx; by apply Hx).
  exists id. split_and!; try done.
  intros evs Hevs. by apply inert_run.
Qed.

Lemma unmount_again w :
  mountRef (host w) = None →
  resize_listener (host w) = false →
  pending (host w) = [] →
  (∀ r, r ∈ released (session w)) →
  untraced (step w Unmount) = untraced w ∧
  count is_report (trace (host (step w Unmount))) =
    count is_report (trace (host w)).
Proof.
  intros Hm Hl Hp Hr.
  destruct (cleanup_again w Hm Hl Hp Hr) as [Hres Hun].
  cbn [step]. assert (report (cleanup w) = fst (cleanup w)) as ->.
  { destruct (cleanup w) as [w' [[]|e]]; done. }
  split; [done|]. clear Hun. revert Hres.
  unfold cleanup, removeChild, cancelAnimationFrame, removeEventListener, dispose.
  unfold_m. destruct w as [h a s]. cbn in Hm.
  destruct a as [i|]; cbn; [destruct (decide (i = 0%Z)); cbn|];
    rewrite Hm; cbn; intros _; unfold count;
    rewrite ?List.filter_app, ?length_app; cbn; lia.
Qed.

Lemma cleanup_repeat w n :
  mountRef (host w) = None →
  resize_listener (host w) = false →
  pending (host w) = [] →
  (∀ r, r ∈ released (session w)) →
  untraced (run w (replicate n Unmount)) = untraced w ∧
  count is_report (trace (host (run w (replicate n Unmount)))) =
    count is_report (trace (host w)).
Proof.
  revert w. induction n as [|n IH]; intros w Hm Hl Hp Hr; [done|].
  destruct (unmount_again w Hm Hl Hp Hr) as [Hu Hc].
  destruct (untraced_fields _ _ Hu) as (Hm' & Hl' & Hp' & Hr' & _).
  change (run w (replicate (S n) Unmount))
    with (run (step w Unmount) (replicate n Unmount)).
  destruct (IH (step w Unmount)) as [-> ->]; [congruence..| |done].
  intros r. rewrite Hr'. apply Hr.
Qed.

(** C2, as the code has it.  There is no disposed flag: the cleanup makes
    the session unreachable instead.  After the cleanup of an active
    session, the frames and resize events of the host change nothing; and
    once the mount reference is cleared, calling the cleanup any number of
    times more raises nothing and leaves the state as it was (only the
    record of effects grows).  The closures themselves are not guarded: a
    call of [animate] after the cleanup requests a frame again. *)
Theorem cleaned_up_session_is_unreachable w :
  active w →
  let w1 := step w Unmount in
  (∀ evs, forallb is_callback evs = true → run w1 evs = w1) ∧
  (mountRef (host w) = None →
   ∀ n, untraced (run w1 (replicate n Unmount)) = untraced w1 ∧
        count is_report (trace (host (run w1 (replicate n Unmount)))) =
          count is_report (trace (host w))) ∧
  (∀ t draws,
     pending (host w1) = [] ∧
     pending (host (fst (animate t draws w1))) = [next_handle (host w1)]).
Proof.
  intros (Hl & Hc & Hn & id & Hr & Hid & Hp). cbv zeta.
  destruct (cleanup_first w id Hr Hid (or_introl Hc))
    as (Hres & Htr & Hp' & Hl' & _ & Hm' & Hrel).
  cbv zeta in *. rewrite Hp in Hp'. cbn in Hp'.
  rewrite decide_False in Hp' by (intros Hx; by apply Hx).
  assert (step w Unmount = fst (cleanup w)) as ->.
  { cbn [step]. destruct (cleanup w) as [w' [[]|e]]; done. }
  split_and!.
  - intros evs Hevs. by apply inert_run.
  - intros Hm n. rewrite Hm in Hm', Htr.
    assert (count is_report (trace (host (fst (cleanup w)))) =
            count is_report (trace (host w))) as <-.
    { rewrite Htr, !count_app. cbn. lia. }
    by apply cleanup_repeat.
  - intros t draws. split; [done|].
    destruct (animate_fields t draws (fst (cleanup w))) as (-> & _).
    by rewrite Hp'.
Qed.

(** *** The energy level *)

Lemma known_levels :
  currentEnergy "high" = VPreset high ∧
  currentEnergy "medium" = VPreset medium ∧
  currentEnergy "low" = VPreset low.
Proof. done. Qed.

(** A name that is neither a key of [energyColors] nor inherited from
    [Object.prototype] selects the medium preset. *)
Lemma unknown_level_defaults (energyLevel : string) :
  energyLevel ∉ ["high"; "medium"; "low"]%string →
  energyLevel ∉ object_prototype →
  currentEnergy energyLevel = VPreset medium.
Proof.
  intros Hk Hi. unfold currentEnergy.
  assert (get energyColors "medium" = VPreset medium) as -> by done.
  assert (energyColors !! energyLevel = None) as Hnone.
  { unfold energyColors.
    rewrite !lookup_insert_ne, lookup_empty; [done|..];
      intros <-; apply Hk; set_solver. }
  unfold get. rewrite Hnone, decide_False by done. done.
Qed.

(** C6, at an input where the code goes wrong.  ["constructor"] is not one
    of [high], [medium], [low], yet [energyColors["constructor"]] is the
    function every object inherits, which is truthy: the fallback to
    [energyColors.medium] is not taken, and the value selected has neither a
    [color] nor an [intensity]. *)
Theorem inherited_name_is_not_defaulted :
  bool_decide ("constructor"%string ∈ ["high"; "medium"; "low"]%string) = false ∧
  get energyColors "constructor" = VInherited "constructor" ∧
  currentEnergy "constructor" = VInherited "constructor" ∧
  get_color (currentEnergy "constructor") = None ∧
  get_intensity (currentEnergy "constructor") = None.
Proof. done. Qed.

End Properties.

(** ** The scenarios, on real numbers *)

Lemma world0_effect : effect "medium" 0%R true host0 None = Some (world0, Ok tt).
Proof. vm_compute. reflexivity. Qed.

Lemma world0_active : active world0.
Proof.
  unfold active. vm_compute.
  split_and!; try reflexivity. exists 1%Z. split_and!; [reflexivity|discriminate|reflexivity].
Qed.

Lemma world0_detached_active : active world0_detached.
Proof.
  unfold active. vm_compute.
  split_and!; try reflexivity. exists 1%Z. split_and!; [reflexivity|discriminate|reflexivity].
Qed.

(** C1, the claim refuted.  In scenario D the draw of frame 3 throws and
    is reported once, yet a frame is still requested afterwards (handle 3)
    and the host runs it: a fourth draw is attempted. *)
Lemma failing_draw_does_not_stop_the_frames :
  count is_report (trace (host (run world0 scenarioD))) = 1%nat ∧
  count is_render (trace (host (run world0 scenarioD))) = 3%nat ∧
  pending (host (run world0 scenarioD)) = [3] ∧
  count is_render (trace (host (step (run world0 scenarioD) (Tick 3%R true)))) = 4%nat.
Proof. vm_compute. done. Qed.

Lemma frames_go_on_after_a_failure_witness :
  pending (host world0) ≠ [] ∧
  count is_render (trace (host (run world0 (ticks [(1%R, true); (2%R, false); (3%R, true)])))) =
    (count is_render (trace (host world0)) + 3)%nat.
Proof.
  assert (pending (host world0) ≠ []) as Hp by (vm_compute; done).
  split; [exact Hp|].
  exact (proj1 (proj2 (proj2
    (frames_go_on_after_a_failure world0 [(1%R, true); (2%R, false); (3%R, true)] Hp)))).
Defined.

(** C2, the claim refuted.  After the cleanup of [world0] (the mount still
    referenced), a second cleanup throws at [removeChild], and a call of
    [animate] requests a frame again where none was requested. *)
Lemma cleanup_twice_throws_and_animate_reschedules :
  snd (cleanup (step world0 Unmount)) = Thrown NotFoundError ∧
  pending (host (step world0 Unmount)) = [] ∧
  pending (host (fst (animate 1%R true (step world0 Unmount)))) = [2].
Proof. vm_compute. done. Qed.

Lemma cleaned_up_session_is_unreachable_witness :
  active world0_detached ∧
  run (step world0_detached Unmount) [Tick 1%R true; ResizeEvent] =
    step world0_detached Unmount ∧
  untraced (run (step world0_detached Unmount) (replicate 2 Unmount)) =
    untraced (step world0_detached Unmount).
Proof.
  split; [exact world0_detached_active|].
  pose proof (cleaned_up_session_is_unreachable world0_detached
                world0_detached_active) as (Hi & Hr & _).
  split; [exact (Hi [Tick 1%R true; ResizeEvent] eq_refl)|].
  exact (proj1 (Hr eq_refl 2%nat)).
Defined.

Lemma cleanup_cancels_before_release_witness :
  active world0 ∧
  trace (host (fst (cleanup world0))) =
    trace (host world0) ++
    [RemoveResizeListener; CancelAnimationFrame 1; RemoveChild;
     Dispose ParticlesGeometry; Dispose ParticlesMaterial; Dispose OrbGeometry;
     Dispose OrbMaterial; Dispose Renderer] ∧
  run (fst (cleanup world0)) [Tick 1%R true; ResizeEvent; Tick 2%R true] =
    fst (cleanup world0).
Proof.
  split; [exact world0_active|].
  destruct (cleanup_cancels_before_release world0 world0_active)
    as (id & Hid & _ & Htr & _ & _ & Hinert).
  assert (id = 1) as -> by (vm_compute in Hid; congruence).
  split; [exact Htr|].
  exact (Hinert [Tick 1%R true; ResizeEvent; Tick 2%R true] eq_refl).
Defined.

Lemma particle_buffer_fixed_witness :
  effect "medium" 0%R true host0 None = Some (world0, Ok tt) ∧
  length (array_data (positions (session (run world0 scenarioB)))) = 3000%nat.
Proof.
  split; [exact world0_effect|].
  exact (proj1 (proj2
    (particle_buffer_fixed "medium" 0%R true host0 None world0 (Ok tt) scenarioB
       world0_effect))).
Defined.

Lemma particle_update_deterministic_witness :
  array_data (positions (session world0)) =
    array_data (positions (session world0_detached)) ∧
  array_data (positions (session (animate_all world0 [(1%R, true); (2%R, true)]))) =
  array_data (positions (session (animate_all world0_detached [(1%R, false); (2%R, true)]))).
Proof.
  assert (array_data (positions (session world0)) =
          array_data (positions (session world0_detached))) as Hb
    by (vm_compute; reflexivity).
  split; [exact Hb|].
  exact (proj1 (particle_update_deterministic world0 world0_detached
    [(1%R, true); (2%R, true)] [(1%R, false); (2%R, true)] Hb eq_refl)).
Defined.

Lemma light_pulses_witness :
  energy (session world0) = VPreset medium ∧
  light_intensity (session (fst (animate 1%R true world0))) =
    Some (Q2R (15 # 10) + Rtrigo_def.sin (1 * Q2R 2) * Q2R (5 # 10))%R.
Proof.
  assert (energy (session world0) = VPreset medium) as He
    by (vm_compute; reflexivity).
  split; [exact He|].
  exact (light_pulses world0 1%R true medium He).
Defined.

Lemma resize_last_write_wins_witness :
  viewport (fold_left resize ([(800, 600)] ++ [(400, 300)]) world0) =
    (of_Z 400 / of_Z 300, of_Z 400 / of_Z 300, (400, 300))%js.
Proof.
  apply (resize_last_write_wins world0 [(800, 600)] 400 300).
  - vm_compute. reflexivity.
  - vm_compute. discriminate.
Defined.

(** On real numbers the literals are the decimals of the source. *)
Lemma orb_scale_real (w : World (num := R)) (t : R) draws :
  vx (orb_scale (session (fst (animate t draws w)))) =
    (1 + Rtrigo_def.sin t * (2 / 10))%R.
Proof.
  rewrite animate_session. cbn. unfold Q2R. cbn. lra.
Qed.

(** * Further properties of the component and of its caller *)

Section MoreProperties.
Context {num : Type} `{!Arith num}.
Local Open Scope js_scope.
Implicit Types (w : World (num := num)) (t : num) (draws : bool).

(** ** The loop of [animate], slot by slot *)

Lemma move_particle_x t (d : list num) k i :
  move_particle t d k !! (i * 3)%nat = d !! (i * 3)%nat.
Proof.
  apply move_particle_other. intros Heq.
  apply (f_equal (fun n => n mod 3)%nat) in Heq.
  rewrite Nat.Div0.mod_mul, Nat.add_comm, Nat.Div0.mod_add in Heq. done.
Qed.

Lemma move_particle_y t (d : list num) i x y :
  d !! (i * 3)%nat = Some x → d !! (i * 3 + 1)%nat = Some y →
  move_particle t d i !! (i * 3 + 1)%nat =
    Some (fround (y + sin (t + x) * lit (1 # 1000))).
Proof.
  intros Hx Hy. unfold move_particle. rewrite Hx, Hy.
  apply list_lookup_insert_eq. by eapply lookup_lt_Some.
Qed.

Lemma fold_move_y t (l : list nat) (d : list num) i x y :
  NoDup l →
  d !! (i * 3)%nat = Some x → d !! (i * 3 + 1)%nat = Some y →
  fold_left (move_particle t) l d !! (i * 3 + 1)%nat =
    Some (if decide (i ∈ l) then fround (y + sin (t + x) * lit (1 # 1000)) else y).
Proof.
  intros Hl. revert d y. induction Hl as [|k l Hk Hl IH]; intros d y Hx Hy.
  { cbn [fold_left]. rewrite decide_False by apply not_elem_of_nil. done. }
  cbn [fold_left]. destruct (decide (k = i)) as [->|Hne].
  - rewrite (IH (move_particle t d i) (fround (y + sin (t + x) * lit (1 # 1000))));
      [|by rewrite move_particle_x|by apply move_particle_y].
    rewrite (decide_False (P := i ∈ l)) by done.
    rewrite decide_True by (apply elem_of_cons; by left). done.
  - rewrite (IH (move_particle t d k) y);
      [|by rewrite move_particle_x|rewrite move_particle_other; [done|lia]].
    destruct (decide (i ∈ l)) as [Hi|Hi].
    + rewrite decide_True by (apply elem_of_cons; by right). done.
    + rewrite decide_False; [done|].
      intros [?|?]%elem_of_cons; [by subst|done].
Qed.


(** X1. One pass of the loop of [animate] advances the y slot of each of
    the first [particlesCount] particles exactly once, by
    [sin (time + x) * 0.001] with that particle's own x, rounded to float32;
    a y slot beyond the count is left as it is. *)
Theorem update_moves_each_particle_once t (d : list num) (i : nat) (x y : num) :
  d !! (i * 3)%nat = Some x →
  d !! (i * 3 + 1)%nat = Some y →
  update_positions t d !! (i * 3 + 1)%nat =
    Some (if decide (i < particlesCount)%nat
          then fround (y + sin (t + x) * lit (1 # 1000)) else y).
Proof.
  intros Hx Hy. unfold update_positions.
  rewrite (fold_move_y t (seq 0 particlesCount) d i x y (NoDup_seq _ _) Hx Hy).
  destruct (decide (i < particlesCount)%nat) as [Hi|Hi].
  - rewrite decide_True; [done|]. apply elem_of_seq. lia.
  - rewrite decide_False; [done|]. rewrite elem_of_seq. lia.
Qed.

(** ** The buffer the effect body leaves *)





(** ** The effect body, the host's events and the cleanup together *)

Ltac unfold_monad :=
  unfold mbind, M_bind, mret, M_ret, bind, ret, gets, modify, throw.

Lemma fill_positions_rest (l : list nat) w :
  let w' := fst (for_each l fill_position w) in
  released (session w') = released (session w) ∧
  arrays_allocated (host w') = arrays_allocated (host w) ∧
  viewport w' = viewport w.
Proof.
  revert w. induction l as [|i l IH]; intros w; [done|].
  change (for_each (i :: l) fill_position w)
    with (for_each l fill_position (fst (fill_position i w))).
  cbv zeta. destruct (IH (fst (fill_position i w))) as (-> & -> & ->). done.
Qed.

Lemma animate_rest t draws w :
  let w' := fst (animate t draws w) in
  released (session w') = released (session w) ∧
  arrays_allocated (host w') = arrays_allocated (host w) ∧
  viewport w' = viewport w ∧
  energy (session w') = energy (session w).
Proof.
  cbv zeta. unfold viewport. rewrite animate_session, animate_host. done.
Qed.


(** X3. The effects of the effect body, in order: the canvas appended, a
    frame requested, the clock read, the draw, and only then the resize
    listener registered.  When the first draw throws, the effect throws with
    the canvas appended and the frame still requested, and the listener is
    never registered. *)
Theorem effect_effects_in_order energyLevel t0 draws0 (h : Host (num := num))
    ref w r :
  effect energyLevel t0 draws0 h ref = Some (w, r) →
  r = (if draws0 then Ok tt else Thrown RenderError) ∧
  trace (host w) =
    trace h ++
    [AppendChild; RequestAnimationFrame (next_handle h); GetElapsedTime; Render] ++
    (if draws0 then [AddResizeListener] else []) ∧
  canvas_in_mount (host w) = true ∧
  pending (host w) = pending h ++ [next_handle h] ∧
  animationIdRef w = Some (next_handle h) ∧
  resize_listener (host w) = (if draws0 then true else resize_listener h).
Proof.
  intros (el & w1 & Hm & Hw1 & -> & ->)%effect_world.
  destruct (fill_positions_frame (seq 0 (particlesCount * 3))
              (construct energyLevel el h ref))
    as (Hp1 & Hn1 & Hl1 & Hc1 & _ & Ht1 & _ & _ & _).
  cbv zeta in *. rewrite <- Hw1 in *. clear Hw1.
  change (pending (host (construct energyLevel el h ref))) with (pending h) in Hp1.
  change (next_handle (host (construct energyLevel el h ref)))
    with (next_handle h) in Hn1.
  change (resize_listener (host (construct energyLevel el h ref)))
    with (resize_listener h) in Hl1.
  change (canvas_in_mount (host (construct energyLevel el h ref))) with true in Hc1.
  change (trace (host (construct energyLevel el h ref)))
    with (trace h ++ [AppendChild]) in Ht1.
  destruct (animate_fields t0 draws0 w1)
    as (Hp2 & _ & Hr2 & Hl2 & Hc2 & _ & _ & Ht2).
  cbv zeta in *. rewrite Hp1, Hn1 in Hp2. rewrite Hn1 in Hr2, Ht2.
  rewrite Hl1 in Hl2. rewrite Hc1 in Hc2. rewrite Ht1 in Ht2.
  split; [done|]. destruct draws0.
  - rewrite addEventListener_host, addEventListener_ref.
    change (trace (log AddResizeListener (set_resize_listener true ?x)))
      with (trace x ++ [AddResizeListener]).
    change (canvas_in_mount (log AddResizeListener (set_resize_listener true ?x)))
      with (canvas_in_mount x).
    change (pending (log AddResizeListener (set_resize_listener true ?x)))
      with (pending x).
    rewrite Ht2, Hc2, Hp2, Hr2, <- !app_assoc. done.
  - rewrite Ht2, Hc2, Hp2, Hr2, Hl2, <- !app_assoc. done.
Qed.

(** X4. From the end of an effect body whose first draw succeeded in a page
    with no frame requested, whatever frames, resizes, layout changes or
    ref detachment follow, exactly one frame is requested, its handle is the
    one in [animationIdRef], and the listener and the canvas stay in place:
    the loop is never doubled and never lost. *)
Theorem session_stays_active energyLevel t0 (h : Host (num := num)) ref w r
    (evs : list Event) :
  effect energyLevel t0 true h ref = Some (w, r) →
  pending h = [] → (0 < next_handle h)%Z →
  Forall (fun ev => ev ≠ Unmount) evs →
  ∃ id, pending (host (run w evs)) = [id] ∧
        animationIdRef (run w evs) = Some id ∧
        resize_listener (host (run w evs)) = true ∧
        canvas_in_mount (host (run w evs)) = true.
Proof.
  intros He Hp Hn Hevs.
  destruct (effect_active energyLevel t0 h ref w r He Hp Hn) as (_ & Ha & _).
  destruct (active_run w evs Ha Hevs) as (Hl & Hc & _ & id & Hr & _ & Hq).
  by exists id.
Qed.

Lemma handleResize_released w :
  released (session (fst (handleResize w))) = released (session w).
Proof. unfold handleResize; unfold_monad. by destruct (mountRef (host w)). Qed.

Lemma released_step w ev :
  ev ≠ Unmount → released (session (step w ev)) = released (session w).
Proof.
  intros Hev. destruct ev as [t draws| |cw ch| |]; [| | | |done]; cbn [step].
  - destruct (pending (host w)) as [|id rest]; [done|].
    rewrite report_animate.
    destruct (animate_rest t draws (on_host (set_pending rest) w)) as (Hr & _).
    destruct draws; [exact Hr|].
    destruct (logged_fields (ReportError RenderError)
                (fst (animate t false (on_host (set_pending rest) w))))
      as (_ & _ & _ & _ & _ & _ & -> & _).
    exact Hr.
  - destruct (resize_listener (host w)); [|done].
    by rewrite report_handleResize, handleResize_released.
  - by destruct (mountRef (host w)).
  - done.
Qed.

Lemma released_run w (evs : list Event) :
  Forall (fun ev => ev ≠ Unmount) evs →
  released (session (run w evs)) = released (session w).
Proof.
  intros Hevs. revert w. induction Hevs as [|ev evs Hev _ IH]; intros w; [done|].
  change (run w (ev :: evs)) with (run (step w ev) evs).
  by rewrite IH, released_step.
Qed.

(** The rest of what the cleanup leaves when it returns. *)
Lemma cleanup_rest w id :
  animationIdRef w = Some id → id ≠ 0%Z →
  canvas_in_mount (host w) = true ∨ mountRef (host w) = None →
  let w' := fst (cleanup w) in
  next_handle (host w') = next_handle (host w) ∧
  canvas_in_mount (host w') =
    match mountRef (host w) with Some _ => false | None => canvas_in_mount (host w) end ∧
  released (session w') =
    mark Renderer (mark OrbMaterial (mark OrbGeometry
      (mark ParticlesMaterial (mark ParticlesGeometry (released (session w)))))) ∧
  viewport w' = viewport w ∧
  random_calls (host w') = random_calls (host w).
Proof.
  intros Hid Hne Hc. cbv zeta.
  unfold cleanup, removeChild, cancelAnimationFrame, removeEventListener, dispose.
  unfold_monad. cbn. rewrite Hid. cbn.
  destruct (decide (id = 0%Z)) as [|_]; [done|]. cbn.
  destruct (mountRef (host w)) as [el|] eqn:Hm; cbn; [|done].
  destruct Hc as [Hc|Hc]; [|done]. rewrite Hc. done.
Qed.

Lemma step_unmount_active w :
  active w → step w Unmount = fst (cleanup w).
Proof.
  intros (Hl & Hc & Hn & id & Hr & Hid & Hp).
  destruct (cleanup_first w id Hr Hid (or_introl Hc)) as (Hres & _).
  cbn [step]. destruct (cleanup w) as [w' [[]|e]]; done.
Qed.

Lemma effect_rest energyLevel t0 draws0 (h : Host (num := num)) ref w r :
  effect energyLevel t0 draws0 h ref = Some (w, r) →
  released (session w) = [] ∧
  arrays_allocated (host w) = S (arrays_allocated h) ∧
  ∃ el, mountRef h = Some el ∧
        viewport w = (of_Z (clientWidth el) / of_Z (clientHeight el),
                      of_Z (clientWidth el) / of_Z (clientHeight el),
                      (clientWidth el, clientHeight el)).
Proof.
  intros (el & w1 & Hm & Hw1 & -> & _)%effect_world.
  destruct (fill_positions_rest (seq 0 (particlesCount * 3))
              (construct energyLevel el h ref)) as (Hr1 & Ha1 & Hv1).
  cbv zeta in *. rewrite <- Hw1 in *. clear Hw1.
  change (released (session (construct energyLevel el h ref)))
    with (@nil Resource) in Hr1.
  change (arrays_allocated (host (construct energyLevel el h ref)))
    with (S (arrays_allocated h)) in Ha1.
  change (viewport (construct energyLevel el h ref))
    with (of_Z (clientWidth el) / of_Z (clientHeight el),
          of_Z (clientWidth el) / of_Z (clientHeight el),
          (clientWidth el, clientHeight el)) in Hv1.
  destruct (animate_rest t0 draws0 w1) as (Hr2 & Ha2 & Hv2 & _).
  cbv zeta in *. rewrite Hr1 in Hr2. rewrite Ha1 in Ha2. rewrite Hv1 in Hv2.
  destruct draws0.
  - unfold viewport in *.
    rewrite addEventListener_session, addEventListener_host.
    change (arrays_allocated (log AddResizeListener (set_resize_listener true ?x)))
      with (arrays_allocated x).
    eauto.
  - eauto.
Qed.

(** X5. A session that was built with a successful first draw and is
    cleaned up after any frames and resizes has had [dispose] called on each
    of its five resources, each recorded once, none before the cleanup; and
    the cleanup throws nothing. *)
Theorem cleanup_releases_everything_once energyLevel t0 (h : Host (num := num))
    ref w r (evs : list Event) :
  effect energyLevel t0 true h ref = Some (w, r) →
  pending h = [] → (0 < next_handle h)%Z →
  Forall (fun ev => ev ≠ Unmount) evs →
  released (session (run w evs)) = [] ∧
  released (session (step (run w evs) Unmount)) =
    [ParticlesGeometry; ParticlesMaterial; OrbGeometry; OrbMaterial; Renderer] ∧
  count is_report (trace (host (step (run w evs) Unmount))) =
    count is_report (trace (host (run w evs))).
Proof.
  intros He Hp Hn Hevs.
  destruct (effect_active energyLevel t0 h ref w r He Hp Hn) as (_ & Ha & _).
  destruct (effect_rest _ _ _ _ _ _ _ He) as (Hr & _).
  pose proof (active_run w evs Ha Hevs) as Ha'.
  rewrite (step_unmount_active _ Ha').
  assert (released (session (run w evs)) = []) as Hr'
    by by rewrite released_run.
  destruct Ha' as (Hl & Hc & _ & id & Hid & Hne & Hq).
  destruct (cleanup_first _ id Hid Hne (or_introl Hc)) as (_ & Htr & _).
  destruct (cleanup_rest _ id Hid Hne (or_introl Hc)) as (_ & _ & Hrel & _).
  cbv zeta in *. rewrite Hrel, Hr', Htr, !count_app.
  split_and!; [done|done|].
  destruct (mountRef (host (run w evs))); cbn; lia.
Qed.

(** X6. The cleanup of an active session removes the canvas from the mount
    exactly when the mount is still referenced; when React has cleared the
    reference first, [removeChild] is not called and the canvas stays a
    child of the mount element. *)
Theorem cleanup_removes_canvas_iff_mount_referenced w :
  active w →
  canvas_in_mount (host (step w Unmount)) =
    match mountRef (host w) with Some _ => false | None => true end ∧
  (RemoveChild ∈ drop (length (trace (host w))) (trace (host (step w Unmount)))
   ↔ mountRef (host w) ≠ None).
Proof.
  intros Ha. rewrite (step_unmount_active _ Ha).
  destruct Ha as (Hl & Hc & _ & id & Hid & Hne & Hq).
  destruct (cleanup_first _ id Hid Hne (or_introl Hc)) as (_ & Htr & _).
  destruct (cleanup_rest _ id Hid Hne (or_introl Hc)) as (_ & Hcv & _).
  cbv zeta in *. rewrite Hcv, Htr, drop_app_length, Hc.
  destruct (mountRef (host w)); split; try done.
  - split; [done|]. intros _. set_solver.
  - split; [|done]. intros Hin. exfalso. revert Hin.
    cbn. rewrite !elem_of_cons, elem_of_nil.
    intros [?|[?|[?|[?|[?|[?|[?|[]]]]]]]]; done.
Qed.


(** X8. The handles of the requested frames stay pairwise distinct and
    below the next handle under every event of the host, the cleanup
    included: a handle names one frame, so cancelling the handle kept in
    [animationIdRef] cannot cancel another frame. *)
Theorem handles_stay_fresh w (evs : list Event) :
  handles_fresh (host w) → handles_fresh (host (run w evs)).
Proof.
  revert w. induction evs as [|ev evs IH]; intros w Hw; [done|].
  change (run w (ev :: evs)) with (run (step w ev) evs). apply IH. clear IH.
  destruct Hw as [Hnd Hlt]. unfold handles_fresh.
  destruct ev as [t draws| |cw ch| |]; cbn [step].
  - destruct (pending (host w)) as [|id rest] eqn:Hq; [by rewrite Hq|].
    destruct (step_tick_host w t draws id rest Hq) as (Hp' & Hn' & _).
    cbv zeta in *. cbn [step] in Hp', Hn'. rewrite Hq in Hp', Hn'.
    rewrite Hp', Hn'.
    apply NoDup_cons in Hnd as [_ Hnd]. apply Forall_cons in Hlt as [_ Hlt].
    split.
    + apply NoDup_app. split_and!; [done| |apply NoDup_singleton].
      intros x Hx ->%list_elem_of_singleton.
      rewrite Forall_forall in Hlt. specialize (Hlt _ Hx). lia.
    + apply Forall_app. split; [|apply Forall_singleton; lia].
      eapply Forall_impl; [exact Hlt|]. intros x Hx. cbv beta in Hx |- *. lia.
  - destruct (resize_listener (host w)); [|done].
    by rewrite report_handleResize, handleResize_host.
  - by destruct (mountRef (host w)).
  - done.
  - assert (next_handle (host (report (cleanup w))) = next_handle (host w) ∧
            (pending (host (report (cleanup w))) = pending (host w) ∨
             ∃ i, pending (host (report (cleanup w))) =
                    filter (fun j => j ≠ i) (pending (host w))))
      as (-> & [->| [i ->]]).
    { unfold cleanup, removeChild, cancelAnimationFrame, removeEventListener,
        dispose. unfold_monad.
      destruct w as [hh a ss]. cbn.
      destruct a as [i|]; cbn; [destruct (decide (i = 0%Z)); cbn|];
        (destruct (mountRef hh); cbn; [destruct (canvas_in_mount hh); cbn|]);
        (split; [done|]); eauto. }
    + done.
    + split; [by apply NoDup_filter|].
      rewrite Forall_forall in Hlt |- *.
      intros x [_ Hx]%list_elem_of_filter. by apply Hlt.
Qed.

Lemma viewport_on_host (f : Host (num := num) → Host) w :
  viewport (on_host f w) = viewport w.
Proof. reflexivity. Qed.

(** X9. Frames never touch the camera's aspect, its projection or the
    surface's size; so with frames before and after a resize, succeeding or
    throwing, the viewport is that of the resize. *)
Theorem frames_keep_the_viewport w (evs1 evs2 : list Event) (cw ch : Z) :
  resize_listener (host w) = true → mountRef (host w) ≠ None →
  forallb is_tick evs1 = true → forallb is_tick evs2 = true →
  viewport (run w evs1) = viewport w ∧
  viewport (run (resize (run w evs1) (cw, ch)) evs2) =
    (of_Z cw / of_Z ch, of_Z cw / of_Z ch, (cw, ch)).
Proof.
  assert (∀ w ev, is_tick ev = true →
            viewport (step w ev) = viewport w ∧
            resize_listener (host (step w ev)) = resize_listener (host w) ∧
            mountRef (host (step w ev)) = mountRef (host w)) as Hstep.
  { intros w0 [t draws| | | |] Hev; try done.
    destruct (pending (host w0)) as [|id rest] eqn:Hq.
    { cbn [step]. by rewrite Hq. }
    destruct (step_tick_host w0 t draws id rest Hq)
      as (_ & _ & _ & Hl & _ & Hm & _).
    split; [|done].
    rewrite (step_tick w0 t draws id rest Hq). cbv zeta.
    destruct (animate_rest t draws (on_host (set_pending rest) w0))
      as (_ & _ & Hv & _).
    cbv zeta in Hv. rewrite (viewport_on_host (set_pending rest) w0) in Hv.
    destruct draws; [exact Hv|].
    rewrite viewport_on_host. exact Hv. }
  assert (∀ evs w, forallb is_tick evs = true →
            viewport (run w evs) = viewport w ∧
            resize_listener (host (run w evs)) = resize_listener (host w) ∧
            mountRef (host (run w evs)) = mountRef (host w)) as Hrun.
  { induction evs as [|ev evs IH]; intros w0 Hevs; [done|].
    apply andb_prop in Hevs as [Hev Hevs].
    change (run w0 (ev :: evs)) with (run (step w0 ev) evs).
    destruct (IH (step w0 ev) Hevs) as (-> & -> & ->). by apply Hstep. }
  intros Hl Hm H1 H2.
  destruct (Hrun evs1 w H1) as (Hv1 & Hl1 & Hm1).
  split; [done|].
  destruct (Hrun evs2 (resize (run w evs1) (cw, ch)) H2) as (-> & _).
  apply resize_spec; congruence.
Qed.

(** ** The caller *)

(** X10. Whatever cards are clicked, the level [App] passes to the
    visualization is an own key of [energyColors]: the lookup finds a preset
    and neither the fallback to [medium] nor a name inherited from
    [Object.prototype] is ever used. *)
Theorem app_passes_only_own_keys (clicks : list nat) (energyLevel : string) :
  visualization_prop (fold_left click_card clicks None) = Some energyLevel →
  energyLevel ∈ ["high"; "medium"; "low"]%string ∧
  ∃ p, get energyColors energyLevel = VPreset p ∧
       currentEnergy energyLevel = VPreset p.
Proof.
  assert (∀ sel, (sel = None ∨ ∃ s, sel = Some s ∧ s ∈ ["high"; "medium"; "low"]%string) →
            let sel' := fold_left click_card clicks sel in
            sel' = None ∨ ∃ s, sel' = Some s ∧ s ∈ ["high"; "medium"; "low"]%string)
    as Hinv.
  { induction clicks as [|i clicks IH]; intros sel Hsel; [done|].
    apply IH. unfold click_card.
    destruct i as [|[|[|i]]]; cbn; [right; eexists; split; [done|]..|done];
      rewrite !elem_of_cons; auto. }
  intros Hv. destruct (Hinv None (or_introl eq_refl)) as [Hn|(s & Hs & Hin)].
  { by rewrite Hn in Hv. }
  rewrite Hs in Hv. cbn in Hv. case_decide; [done|]. injection Hv as <-.
  split; [done|].
  rewrite !elem_of_cons, elem_of_nil in Hin.
  destruct Hin as [->|[->|[->|[]]]]; eexists; split; done.
Qed.

(** X11. [App] has no way back to no selection: once the visualization is
    rendered, no sequence of clicks unmounts it. *)
Theorem selection_is_never_cleared (clicks : list nat) (selectedEnergy : option string) :
  is_Some (visualization_prop selectedEnergy) →
  is_Some (visualization_prop (fold_left click_card clicks selectedEnergy)).
Proof.
  revert selectedEnergy. induction clicks as [|i clicks IH]; intros sel Hsel; [done|].
  cbn [fold_left]. apply IH. unfold click_card.
  destruct i as [|[|[|i]]]; cbn; done.
Qed.

(** ** What the energy level decides *)

Lemma inherited_names (name : string) :
  name ∈ object_prototype → currentEnergy name = VInherited name.
Proof.
  unfold object_prototype. rewrite !elem_of_cons, elem_of_nil.
  intros [->|[->|[->|[->|[->|[->|[->|[->|[->|[->|[->|[->|[]]]]]]]]]]]]]; done.
Qed.

Lemma effect_energy energyLevel t0 draws0 (h : Host (num := num)) ref w r :
  effect energyLevel t0 draws0 h ref = Some (w, r) →
  energy (session w) = currentEnergy energyLevel ∧
  light_intensity (session w) =
    add_undefined (get_intensity (currentEnergy energyLevel))
      (sin (t0 * lit 2) * lit (5 # 10)).
Proof.
  intros (el & w1 & _ & Hw1 & -> & _)%effect_world.
  destruct (fill_positions_frame (seq 0 (particlesCount * 3))
              (construct energyLevel el h ref))
    as (_ & _ & _ & _ & _ & _ & _ & He1 & _).
  cbv zeta in He1. rewrite <- Hw1 in He1. clear Hw1.
  change (energy (session (construct energyLevel el h ref)))
    with (currentEnergy energyLevel) in He1.
  assert (session (if draws0
                   then fst (addEventListener (fst (animate t0 draws0 w1)))
                   else fst (animate t0 draws0 w1)) =
          session (fst (animate t0 draws0 w1))) as ->.
  { destruct draws0; [apply addEventListener_session|reflexivity]. }
  rewrite animate_session. cbn [energy light_intensity]. by rewrite He1.
Qed.

Lemma animate_all_energy w (ts : list (num * bool)) :
  energy (session (animate_all w ts)) = energy (session w).
Proof.
  revert w. induction ts as [|[t draws] ts IH]; intros w; [reflexivity|].
  rewrite animate_all_cons, IH.
  by destruct (animate_rest t draws w) as (_ & _ & _ & ->).
Qed.

Lemma animate_all_snoc w (ts : list (num * bool)) t draws :
  animate_all w (ts ++ [(t, draws)]) = fst (animate t draws (animate_all w ts)).
Proof. unfold animate_all. by rewrite fold_left_app. Qed.

(** X16. For every name inherited from [Object.prototype] ([toString],
    [valueOf], [hasOwnProperty], ...), not only [constructor], the session
    is built around a value with no [color] and no [intensity], and the
    light's intensity is not a number from the first frame on. *)
Theorem inherited_level_breaks_the_light energyLevel t0 draws0
    (h : Host (num := num)) ref w r (ts : list (num * bool)) :
  effect energyLevel t0 draws0 h ref = Some (w, r) →
  energyLevel ∈ object_prototype →
  get_color (energy (session w)) = None ∧
  light_intensity (session (animate_all w ts)) = None.
Proof.
  intros [He Hl]%effect_energy Hin.
  rewrite (inherited_names _ Hin) in He, Hl.
  split; [by rewrite He|].
  destruct ts as [|td ts _] using rev_ind; [exact Hl|].
  destruct td as [t draws]. rewrite animate_all_snoc, animate_session.
  cbn [light_intensity]. by rewrite animate_all_energy, He.
Qed.

(** X17. A level that is neither a key of [energyColors] nor an inherited
    name is indistinguishable from [medium]: the effect body does exactly
    what it does for [medium]. *)
Theorem unknown_level_is_medium energyLevel t0 draws0 (h : Host (num := num)) ref :
  energyLevel ∉ ["high"; "medium"; "low"]%string →
  energyLevel ∉ object_prototype →
  effect energyLevel t0 draws0 h ref = effect "medium" t0 draws0 h ref.
Proof.
  intros Hk Hi. unfold effect, construct.
  rewrite (unknown_level_defaults energyLevel Hk Hi).
  destruct known_levels as (_ & -> & _). reflexivity.
Qed.

Lemma world_eta w :
  w = {| host := host w; animationIdRef := animationIdRef w; session := session w |}.
Proof. by destruct w. Qed.

Lemma without_energy_eq w1 w2 :
  host w1 = host w2 → animationIdRef w1 = animationIdRef w2 →
  session (without_energy w1) = session (without_energy w2) →
  without_energy w1 = without_energy w2.
Proof.
  destruct w1, w2. unfold without_energy, on_session. cbn.
  by intros -> -> ->.
Qed.

Lemma without_energy_fields w1 w2 :
  without_energy w1 = without_energy w2 →
  host w1 = host w2 ∧ animationIdRef w1 = animationIdRef w2 ∧
  time (session w1) = time (session w2) ∧
  camera_aspect (session w1) = camera_aspect (session w2) ∧
  projection_aspect (session w1) = projection_aspect (session w2) ∧
  renderer_size (session w1) = renderer_size (session w2) ∧
  positions (session w1) = positions (session w2) ∧
  needsUpdate (session w1) = needsUpdate (session w2) ∧
  particles_rotation (session w1) = particles_rotation (session w2) ∧
  orb_rotation (session w1) = orb_rotation (session w2) ∧
  orb_scale (session w1) = orb_scale (session w2) ∧
  released (session w1) = released (session w2).
Proof.
  destruct w1 as [? ? []], w2 as [? ? []]. unfold without_energy, on_session. cbn.
  intros [= -> -> -> -> -> -> -> -> -> -> -> ->]. done.
Qed.

Lemma animate_blind t draws w1 w2 :
  without_energy w1 = without_energy w2 →
  without_energy (fst (animate t draws w1)) =
  without_energy (fst (animate t draws w2)).
Proof.
  intros (Hh & Hr & _ & Hca & Hpa & Hrs & Hpos & _ & Hpr & Hor & _ & Hrel)
    %without_energy_fields.
  apply without_energy_eq.
  - by rewrite !animate_host, Hh.
  - by rewrite !animate_ref, Hh.
  - unfold without_energy, on_session. cbn [session].
    rewrite !animate_session. cbv zeta.
    cbn [time camera_aspect projection_aspect renderer_size positions needsUpdate
         particles_rotation orb_rotation orb_scale released].
    by rewrite Hca, Hpa, Hrs, Hpos, Hpr, Hor, Hrel.
Qed.

Lemma logged_blind e w1 w2 :
  without_energy w1 = without_energy w2 →
  without_energy (on_host (log e) w1) = without_energy (on_host (log e) w2).
Proof.
  destruct w1 as [? ? []], w2 as [? ? []].
  unfold without_energy, on_session, on_host. cbn.
  by intros [= -> -> -> -> -> -> -> -> -> -> -> ->].
Qed.

Lemma handleResize_blind w1 w2 :
  without_energy w1 = without_energy w2 →
  without_energy (fst (handleResize w1)) = without_energy (fst (handleResize w2)).
Proof.
  destruct w1 as [h1 a1 []], w2 as [h2 a2 []].
  unfold without_energy, on_session. cbn. intros [= -> -> -> -> -> -> -> -> -> -> -> ->].
  unfold handleResize; unfold_monad. cbn. by destruct (mountRef h2).
Qed.

Lemma cleanup_blind w1 w2 :
  without_energy w1 = without_energy w2 →
  without_energy (report (cleanup w1)) = without_energy (report (cleanup w2)).
Proof.
  destruct w1 as [h1 a1 []], w2 as [h2 a2 []].
  unfold without_energy, on_session. cbn. intros [= -> -> -> -> -> -> -> -> -> -> -> ->].
  unfold cleanup, removeChild, cancelAnimationFrame, removeEventListener, dispose.
  unfold_monad. cbn.
  destruct a2 as [i|]; cbn; [destruct (decide (i = 0%Z)); cbn|];
    (destruct (mountRef h2); cbn; [destruct (canvas_in_mount h2); cbn|]); done.
Qed.

Lemma step_blind w1 w2 ev :
  without_energy w1 = without_energy w2 →
  without_energy (step w1 ev) = without_energy (step w2 ev).
Proof.
  intros Hw. pose proof (without_energy_fields _ _ Hw) as (Hh & _).
  destruct ev as [t draws| |cw ch| |]; cbn [step].
  - rewrite Hh. destruct (pending (host w2)) as [|id rest]; [done|].
    rewrite !report_animate.
    assert (without_energy (on_host (set_pending rest) w1) =
            without_energy (on_host (set_pending rest) w2)) as Hw'.
    { clear -Hw. destruct w1 as [? ? []], w2 as [? ? []].
      unfold without_energy, on_session, on_host in *.
      cbn in *. by injection Hw as -> -> -> -> -> -> -> -> -> -> -> ->. }
    pose proof (animate_blind t draws _ _ Hw') as Ha.
    destruct draws; [exact Ha|by apply logged_blind].
  - rewrite Hh. destruct (resize_listener (host w2)); [|done].
    rewrite !report_handleResize. by apply handleResize_blind.
  - rewrite Hh. destruct (mountRef (host w2)); [|done].
    clear -Hw. destruct w1 as [? ? []], w2 as [? ? []].
    unfold without_energy, on_session, on_host in *.
    cbn in *. by injection Hw as -> -> -> -> -> -> -> -> -> -> -> ->.
  - clear -Hw. destruct w1 as [? ? []], w2 as [? ? []].
    unfold without_energy, on_session, on_host in *.
    cbn in *. by injection Hw as -> -> -> -> -> -> -> -> -> -> -> ->.
  - by apply cleanup_blind.
Qed.

Lemma fill_blind (l : list nat) w1 w2 :
  without_energy w1 = without_energy w2 →
  without_energy (fst (for_each l fill_position w1)) =
  without_energy (fst (for_each l fill_position w2)).
Proof.
  revert w1 w2. induction l as [|i l IH]; intros w1 w2 Hw; [done|].
  change (for_each (i :: l) fill_position ?w)
    with (for_each l fill_position (fst (fill_position i w))).
  apply IH. clear IH.
  destruct w1 as [h1 a1 []], w2 as [h2 a2 []].
  unfold without_energy, on_session in *. cbn in *.
  by injection Hw as -> -> -> -> -> -> -> -> -> -> -> ->.
Qed.

(** X18. The energy level decides the selected preset and the light's
    intensity and nothing else: two sessions built in the same page for
    two levels, then driven by the same events, agree on everything apart
    from those two (the buffer, the rotations, the viewport, the frames
    requested, the order of effects), and the effect body returns or throws
    alike. *)
Theorem energy_level_decides_only_the_preset level1 level2 t0 draws0
    (h : Host (num := num)) ref w1 r1 w2 r2 (evs : list Event) :
  effect level1 t0 draws0 h ref = Some (w1, r1) →
  effect level2 t0 draws0 h ref = Some (w2, r2) →
  r1 = r2 ∧ without_energy (run w1 evs) = without_energy (run w2 evs).
Proof.
  intros (el1 & v1 & Hm1 & Hv1 & -> & ->)%effect_world
         (el2 & v2 & Hm2 & Hv2 & -> & ->)%effect_world.
  rewrite Hm1 in Hm2. injection Hm2 as <-.
  split; [done|].
  assert (without_energy v1 = without_energy v2) as Hv.
  { subst v1 v2. apply fill_blind. reflexivity. }
  clear Hv1 Hv2.
  pose proof (animate_blind t0 draws0 _ _ Hv) as Ha.
  assert (without_energy
            (if draws0 then fst (addEventListener (fst (animate t0 draws0 v1)))
             else fst (animate t0 draws0 v1)) =
          without_energy
            (if draws0 then fst (addEventListener (fst (animate t0 draws0 v2)))
             else fst (animate t0 draws0 v2))) as Hw.
  { destruct draws0; [|exact Ha].
    generalize dependent (fst (animate t0 true v1)).
    generalize dependent (fst (animate t0 true v2)).
    clear. intros u2 u1 Hu. destruct u1 as [? ? []], u2 as [? ? []].
    unfold without_energy, on_session, addEventListener, modify, on_host in *.
    cbn in *. by injection Hu as -> -> -> -> -> -> -> -> -> -> -> ->. }
  revert Hw. generalize (if draws0
    then fst (addEventListener (fst (animate t0 draws0 v1)))
    else fst (animate t0 draws0 v1)).
  generalize (if draws0
    then fst (addEventListener (fst (animate t0 draws0 v2)))
    else fst (animate t0 draws0 v2)).
  clear. intros u2 u1 Hu. revert u1 u2 Hu.
  induction evs as [|ev evs IH]; intros u1 u2 Hu; [exact Hu|].
  change (run ?u (ev :: evs)) with (run (step u ev) evs).
  apply IH. by apply step_blind.
Qed.

End MoreProperties.

(** ** Bounds, on real numbers *)

Lemma Q2R_literals :
  Q2R (5 # 10) = (1 / 2)%R ∧ Q2R 10 = 10%R ∧ Q2R (1 # 1000) = (1 / 1000)%R ∧
  Q2R (2 # 10) = (2 / 10)%R ∧ Q2R 1 = 1%R ∧ Q2R 2 = 2%R ∧
  Q2R (15 # 10) = (3 / 2)%R.
Proof. unfold Q2R. cbn. split_and!; lra. Qed.





(** X14. In real arithmetic the orb's scale after a frame is the same on
    the three axes and lies between 0.8 and 1.2: the orb never collapses or
    flips. *)
Theorem orb_scale_stays_positive (w : World (num := R)) (t : R) (draws : bool) :
  ∃ k : R,
    orb_scale (session (fst (animate t draws w))) = {| vx := k; vy := k; vz := k |} ∧
    (8 / 10 <= k <= 12 / 10)%R.
Proof.
  rewrite animate_session. cbn [orb_scale]. eexists. split; [reflexivity|].
  cbn [add mul sin lit RArith].
  destruct Q2R_literals as (_ & _ & _ & -> & -> & _).
  pose proof (SIN_bound t). lra.
Qed.

(** X15. In real arithmetic, for a session built for one of the three
    presets, the light's intensity after a frame is within 0.5 of the
    preset's intensity, hence between 0.5 and 2.5: the light never goes
    out. *)
Theorem light_stays_lit (w : World (num := R)) (t : R) (draws : bool)
    (p : Preset (num := R)) :
  energy (session w) = VPreset p →
  p ∈ [high; medium; low] →
  ∃ I : R,
    light_intensity (session (fst (animate t draws w))) = Some I ∧
    (intensity p - 1 / 2 <= I <= intensity p + 1 / 2)%R ∧
    (1 / 2 <= I <= 5 / 2)%R.
Proof.
  intros He Hp. rewrite animate_session. cbn [light_intensity]. rewrite He.
  cbn [get_intensity add_undefined]. eexists. split; [reflexivity|].
  cbn [add mul sin lit RArith].
  destruct Q2R_literals as (Hh & _ & _ & _ & H1 & H2 & H15).
  pose proof (SIN_bound (t * 2)) as Hs. rewrite Hh, H2.
  rewrite !elem_of_cons, elem_of_nil in Hp.
  destruct Hp as [->|[->|[->|[]]]];
    cbn [intensity high medium low lit RArith]; rewrite ?H1, ?H2, ?H15; lra.
Qed.

(** ** The further properties at concrete inputs *)

Lemma update_moves_each_particle_once_witness :
  update_positions 1%R [1%R; 2%R; 3%R] !! 1%nat =
    Some (2 + Rtrigo_def.sin (1 + 1) * Q2R (1 # 1000))%R.
Proof.
  exact (update_moves_each_particle_once 1%R [1%R; 2%R; 3%R] 0 1%R 2%R
           eq_refl eq_refl).
Defined.


Lemma effect_effects_in_order_witness :
  trace (host world0) =
    trace host0 ++
    [AppendChild; RequestAnimationFrame (next_handle host0); GetElapsedTime; Render] ++
    [AddResizeListener].
Proof.
  exact (proj1 (proj2 (effect_effects_in_order "medium" 0%R true host0 None
                         world0 (Ok tt) world0_effect))).
Defined.

Lemma scenarioD_no_unmount : Forall (fun ev : Event (num := R) => ev ≠ Unmount) scenarioD.
Proof. repeat constructor; discriminate. Qed.

Lemma session_stays_active_witness :
  ∃ id, pending (host (run world0 scenarioD)) = [id] ∧
        animationIdRef (run world0 scenarioD) = Some id ∧
        resize_listener (host (run world0 scenarioD)) = true ∧
        canvas_in_mount (host (run world0 scenarioD)) = true.
Proof.
  apply (session_stays_active "medium" 0%R host0 None world0 (Ok tt) scenarioD
           world0_effect eq_refl).
  - reflexivity.
  - exact scenarioD_no_unmount.
Defined.

Lemma cleanup_releases_everything_once_witness :
  released (session (step (run world0 scenarioD) Unmount)) =
    [ParticlesGeometry; ParticlesMaterial; OrbGeometry; OrbMaterial; Renderer].
Proof.
  assert (0 < next_handle host0)%Z as Hn by reflexivity.
  exact (proj1 (proj2 (cleanup_releases_everything_once "medium" 0%R host0 None
                         world0 (Ok tt) scenarioD world0_effect eq_refl Hn
                         scenarioD_no_unmount))).
Defined.

Lemma cleanup_removes_canvas_iff_mount_referenced_witness :
  canvas_in_mount (host (step world0_detached Unmount)) =
    match mountRef (host world0_detached) with Some _ => false | None => true end.
Proof.
  exact (proj1 (cleanup_removes_canvas_iff_mount_referenced world0_detached
                  world0_detached_active)).
Defined.

Lemma world0_mount :
  mountRef (host world0) = Some {| clientWidth := 800; clientHeight := 600 |}.
Proof. vm_compute. reflexivity. Qed.


Lemma world0_handles : handles_fresh (host world0).
Proof.
  unfold handles_fresh.
  assert (pending (host world0) = [1%Z]) as -> by (vm_compute; reflexivity).
  assert (next_handle (host world0) = 2%Z) as -> by (vm_compute; reflexivity).
  split; [apply NoDup_singleton|apply Forall_singleton; reflexivity].
Qed.

Lemma handles_stay_fresh_witness :
  handles_fresh (host (run world0 (scenarioD ++ [Unmount; Tick 3%R true]))).
Proof.
  exact (handles_stay_fresh world0 (scenarioD ++ [Unmount; Tick 3%R true])
           world0_handles).
Defined.

Lemma world0_listener : resize_listener (host world0) = true.
Proof. vm_compute. reflexivity. Qed.

Lemma world0_mounted : mountRef (host world0) ≠ None.
Proof. rewrite world0_mount. discriminate. Qed.

Lemma frames_keep_the_viewport_witness :
  viewport (run (resize (run world0 [Tick 1%R true]) (400, 300)) [Tick 2%R false]) =
    (of_Z 400 / of_Z 300, of_Z 400 / of_Z 300, (400, 300))%js.
Proof.
  exact (proj2 (frames_keep_the_viewport world0 [Tick 1%R true] [Tick 2%R false]
                  400 300 world0_listener world0_mounted eq_refl eq_refl)).
Defined.

Lemma app_passes_only_own_keys_witness :
  "low"%string ∈ ["high"; "medium"; "low"]%string ∧
  ∃ p : Preset (num := R),
    get energyColors "low" = VPreset p ∧ currentEnergy "low" = VPreset p.
Proof.
  exact (@app_passes_only_own_keys R RArith [0; 2]%nat "low" eq_refl).
Defined.

Lemma selection_is_never_cleared_witness :
  is_Some (visualization_prop (fold_left click_card [5; 1]%nat (Some "high"%string))).
Proof.
  apply (selection_is_never_cleared [5; 1]%nat (Some "high"%string)).
  eexists. reflexivity.
Defined.





Lemma world0_energy : energy (session world0) = VPreset medium.
Proof. vm_compute. reflexivity. Qed.

Lemma light_stays_lit_witness :
  ∃ I : R,
    light_intensity (session (fst (animate 1%R true world0))) = Some I ∧
    (1 / 2 <= I <= 5 / 2)%R.
Proof.
  assert (medium (num := R) ∈ [high; medium; low]) as Hp
    by (apply elem_of_cons; right; apply elem_of_cons; by left).
  destruct (light_stays_lit world0 1%R true medium world0_energy Hp)
    as (I & HI & _ & Hb).
  exists I. split; [exact HI|exact Hb].
Defined.

Lemma world_toString_effect :
  effect "toString" 0%R true host0 None = Some (world_toString, Ok tt).
Proof. vm_compute. reflexivity. Qed.

Lemma inherited_level_breaks_the_light_witness :
  effect "toString" 0%R true host0 None = Some (world_toString, Ok tt) ∧
  light_intensity (session (animate_all world_toString [(1%R, true)])) = None.
Proof.
  assert ("toString"%string ∈ object_prototype) as Hin
    by (unfold object_prototype; rewrite !elem_of_cons; auto 10).
  split; [exact world_toString_effect|].
  exact (proj2 (inherited_level_breaks_the_light "toString" 0%R true host0 None
                  world_toString (Ok tt) [(1%R, true)] world_toString_effect Hin)).
Defined.

Lemma unknown_level_is_medium_witness :
  effect "High" 0%R true host0 None = effect "medium" 0%R true host0 None.
Proof.
  apply unknown_level_is_medium.
  - rewrite !elem_of_cons, elem_of_nil. intros [?|[?|[?|[]]]]; discriminate.
  - unfold object_prototype. rewrite !elem_of_cons, elem_of_nil.
    intros [?|[?|[?|[?|[?|[?|[?|[?|[?|[?|[?|[?|[]]]]]]]]]]]]]; discriminate.
Defined.

Lemma world_high_effect :
  effect "high" 0%R true host0 None = Some (world_high, Ok tt).
Proof. vm_compute. reflexivity. Qed.

Lemma energy_level_decides_only_the_preset_witness :
  effect "high" 0%R true host0 None = Some (world_high, Ok tt) ∧
  without_energy (run world_high scenarioB) = without_energy (run world0 scenarioB).
Proof.
  split; [exact world_high_effect|].
  exact (proj2 (energy_level_decides_only_the_preset "high" "medium" 0%R true host0
                  None world_high (Ok tt) world0 (Ok tt) scenarioB
                  world_high_effect world0_effect)).
Defined.
